(** * NetworkMonitor: a shallow embedding of src/network-monitor.{h,cpp}

    The monitor polls the host's IPv4 interfaces, decides whether the
    usable addresses changed, stores the latest snapshot and fans the
    change out to the registered callbacks.  The embedding follows the
    C++ member by member; the operating system (getifaddrs, the file
    behind std::ofstream, the detached thread) is an explicit [World]. *)

From Stdlib Require Import ZArith NArith Strings.Byte Ascii String DecimalString DecimalPos Permutation.
From stdpp Require Import base decidable list sorting strings gmap.

Local Open Scope string_scope.
Local Open Scope list_scope.

(** ** Data model (network-monitor.h) *)

Record NetworkInterface := mkNetworkInterface {
  name : string;
  ipAddress : string;
  isWireless : bool;
  isEthernet : bool;
  isModem : bool;
  isActive : bool
}.

(** ** Sorting std::string

    [operator<] on std::string is the lexicographic order of the bytes;
    [String.le] is its reflexive closure, decided by [String.leb].
    The algorithm of std::sort is unspecified, but for a total order
    whose equivalent elements are equal the result is the unique sorted
    arrangement, which merge sort computes. *)
Definition std_sort (v : list string) : list string := merge_sort String.le v.

(** ** haveInterfacesChanged (network-monitor.cpp, lines 163-197) *)

(** The condition of both extraction loops. *)
Definition is_usable (iface : NetworkInterface) : bool :=
  isActive iface
  && negb (String.eqb (ipAddress iface) "")
  && negb (String.eqb (ipAddress iface) "127.0.0.1")
  && negb (String.eqb (name iface) "lo").

(** One extraction loop: push_back the address of every usable entry. *)
Definition extractIps (interfaces : list NetworkInterface) : list string :=
  fold_left
    (fun ips iface => if is_usable iface then ips ++ [ipAddress iface] else ips)
    interfaces [].

(** The final loop [for (i = 0; i < oldIps.size(); i++)], started at
    index [i] with [todo] indices left.  The size test before it keeps
    both subscripts in range; out of range the model stops the scan. *)
Fixpoint scan_differs (oldIps newIps : list string) (i todo : nat) : bool :=
  match todo with
  | O => false
  | S todo' =>
      match oldIps !! i, newIps !! i with
      | Some a, Some b =>
          if negb (String.eqb a b) then true
          else scan_differs oldIps newIps (S i) todo'
      | _, _ => false
      end
  end.

Definition haveInterfacesChanged
    (oldInterfaces newInterfaces : list NetworkInterface) : bool :=
  let oldIps := std_sort (extractIps oldInterfaces) in
  let newIps := std_sort (extractIps newInterfaces) in
  if negb (length oldIps =? length newIps)%nat then true
  else scan_differs oldIps newIps 0 (length oldIps).

(** ** The operating system as seen by the monitor

    One node of the list getifaddrs builds.  [ifa_addr] is [None] for a
    null pointer; [sin_addr] is what the cast to [sockaddr_in] reads and
    means something only when [sa_family] is [AF_INET]. *)

Record in_addr := mk_in_addr {
  o1 : Byte.byte; o2 : Byte.byte; o3 : Byte.byte; o4 : Byte.byte
}.

Record sockaddr := mk_sockaddr { sa_family : Z; sin_addr : in_addr }.

Record ifaddrs := mk_ifaddrs {
  ifa_name : string;
  ifa_flags : Z;
  ifa_addr : option sockaddr
}.

(** Values of <sys/socket.h> and <net/if.h> on Linux. *)
Definition AF_INET : Z := 2.
Definition IFF_UP : Z := 0x1.
Definition IFF_LOOPBACK : Z := 0x8.
Definition IFF_RUNNING : Z := 0x40.

(** <netinet/in.h>: the size of [ipStr], terminating NUL included. *)
Definition INET_ADDRSTRLEN : nat := 16.

(** inet_ntop(AF_INET, ...): the four octets in decimal, dot separated. *)
Definition octet_to_string (b : Byte.byte) : string :=
  NilZero.string_of_uint (N.to_uint (Byte.to_N b)).

Definition inet_ntop (a : in_addr) : string :=
  octet_to_string (o1 a) +:+ "." +:+ octet_to_string (o2 a) +:+ "." +:+
  octet_to_string (o3 a) +:+ "." +:+ octet_to_string (o4 a).

(** The character written by ["\n"]. *)
Definition newline : string := String "010"%char "".

(** A C integer used as a condition. *)
Definition nonzero (z : Z) : bool := negb (z =? 0)%Z.

(** [name.find(p) == 0] *)
Definition starts_with (p s : string) : bool := String.prefix p s.

(** ** Monitor and world state

    A callback is a [std::function<void(const std::vector<NetworkInterface>&)>];
    it acts on the host's own state [Host].  notifyNetworkChange calls it
    with [m_mutex] held, so a callback cannot read or write the monitor's
    locked members.  The model is sequential: every block guarded by
    [m_mutex] is one step, and [m_mutex] itself is not a field. *)

Section Model.
Context {Host : Type}.

Definition NetworkChangeCallback : Type := list NetworkInterface -> Host -> Host.

Record NetworkMonitor := mkNetworkMonitor {
  m_running : bool;
  m_interfaces : list NetworkInterface;
  m_callbacks : list NetworkChangeCallback
}.

Record World := mkWorld {
  w_ifaddrs : option (list ifaddrs);  (* getifaddrs now: None is -1 *)
  w_writable : string -> bool;        (* can std::ofstream open the path *)
  w_files : gmap string string;       (* contents of the files *)
  w_stdout : list string;             (* lines sent to std::cout *)
  w_threads : nat;                    (* detached monitorThread launches *)
  w_host : Host                       (* what the callbacks act on *)
}.

Record State := mkState { mon : NetworkMonitor; world : World }.

(** A member function is a computation over [State]. *)
Definition M (A : Type) : Type := State -> A * State.

Definition ret {A} (a : A) : M A := fun s => (a, s).

Definition bind {A B} (m : M A) (k : A -> M B) : M B :=
  fun s => let (a, s') := m s in k a s'.

Definition gets {A} (f : State -> A) : M A := fun s => (f s, s).

Definition modify (f : State -> State) : M unit := fun s => (tt, f s).

End Model.

Arguments NetworkChangeCallback : clear implicits.
Arguments NetworkMonitor : clear implicits.
Arguments World : clear implicits.
Arguments State : clear implicits.
Arguments M : clear implicits.

Declare Scope monitor_scope.
Delimit Scope monitor_scope with mon.
Notation "'let*' x := m 'in' k" := (bind m (fun x => k))
  (at level 10, x name, m at level 100, k at level 200) : monitor_scope.
Notation "'run' m 'then' k" := (bind m (fun _ => k))
  (at level 10, m at level 100, k at level 200) : monitor_scope.

Section Members.
Context {Host : Type}.
Local Open Scope monitor_scope.

(** Field updates. *)
Definition set_running (b : bool) (s : State Host) : State Host :=
  mkState (mkNetworkMonitor b (m_interfaces (mon s)) (m_callbacks (mon s)))
          (world s).

Definition set_interfaces (v : list NetworkInterface) (s : State Host) : State Host :=
  mkState (mkNetworkMonitor (m_running (mon s)) v (m_callbacks (mon s)))
          (world s).

Definition push_callback (cb : NetworkChangeCallback Host) (s : State Host) : State Host :=
  mkState (mkNetworkMonitor (m_running (mon s)) (m_interfaces (mon s))
                            (m_callbacks (mon s) ++ [cb]))
          (world s).

Definition set_world (w : World Host) (s : State Host) : State Host := mkState (mon s) w.

Definition set_files (fs : gmap string string) (w : World Host) : World Host :=
  mkWorld (w_ifaddrs w) (w_writable w) fs (w_stdout w) (w_threads w) (w_host w).

Definition set_stdout (o : list string) (w : World Host) : World Host :=
  mkWorld (w_ifaddrs w) (w_writable w) (w_files w) o (w_threads w) (w_host w).

Definition set_threads (n : nat) (w : World Host) : World Host :=
  mkWorld (w_ifaddrs w) (w_writable w) (w_files w) (w_stdout w) n (w_host w).

Definition set_host (h : Host) (w : World Host) : World Host :=
  mkWorld (w_ifaddrs w) (w_writable w) (w_files w) (w_stdout w) (w_threads w) h.

Definition set_ifaddrs (r : option (list ifaddrs)) (w : World Host) : World Host :=
  mkWorld r (w_writable w) (w_files w) (w_stdout w) (w_threads w) (w_host w).

(** System calls and library objects. *)
Definition getifaddrs : M Host (option (list ifaddrs)) :=
  gets (fun s => w_ifaddrs (world s)).

(** [std::ofstream file(filePath); file.is_open()]: opening truncates. *)
Definition ofstream_open (filePath : string) : M Host bool :=
  fun s =>
    if w_writable (world s) filePath
    then (true, set_world (set_files (<[filePath := ""]> (w_files (world s)))
                                     (world s)) s)
    else (false, s).

(** [file << text] *)
Definition ofstream_write (filePath text : string) : M Host unit :=
  modify (fun s =>
    set_world (set_files
      (<[filePath := default "" (w_files (world s) !! filePath) +:+ text]>
         (w_files (world s))) (world s)) s).

(** [std::cout << line << std::endl] *)
Definition cout (line : string) : M Host unit :=
  modify (fun s => set_world (set_stdout (w_stdout (world s) ++ [line]) (world s)) s).

(** [std::thread t(&NetworkMonitor::monitorThread, this); t.detach()] *)
Definition launch_monitorThread : M Host unit :=
  modify (fun s => set_world (set_threads (S (w_threads (world s))) (world s)) s).

(** [callback(interfaces)] *)
Definition invoke (cb : NetworkChangeCallback Host) (v : list NetworkInterface)
  : M Host unit :=
  modify (fun s => set_world (set_host (cb v (w_host (world s))) (world s)) s).

(** A range-based for loop with an accumulator. *)
Fixpoint for_each {A B} (l : list A) (body : B -> A -> M Host B) (acc : B) : M Host B :=
  match l with
  | [] => ret acc
  | x :: l' => let* acc' := body acc x in for_each l' body acc'
  end.

(** ** Member functions (network-monitor.cpp) *)

(** The constructor: [m_running(false)], both vectors empty. *)
Definition NetworkMonitor_new : NetworkMonitor Host := mkNetworkMonitor false [] [].

(** lines 24-30 *)
Definition start : M Host unit :=
  let* running := gets (fun s => m_running (mon s)) in
  if running then ret tt
  else
    run modify (set_running true) then
    launch_monitorThread.

(** lines 32-34 *)
Definition stop : M Host unit := modify (set_running false).

(** lines 36-39 *)
Definition getNetworkInterfaces : M Host (list NetworkInterface) :=
  gets (fun s => m_interfaces (mon s)).

(** lines 88-91 *)
Definition registerCallback (callback : NetworkChangeCallback Host) : M Host unit :=
  modify (push_callback callback).

(** The body of the enumeration loop, lines 122-156, for one node. *)
Definition detect_entry (ifa : ifaddrs) (addr : sockaddr) : NetworkInterface :=
  let nm := ifa_name ifa in
  {| name := nm;
     ipAddress := inet_ntop (sin_addr addr);
     isWireless := starts_with "wlan" nm || starts_with "wifi" nm
                   || starts_with "wl" nm;
     isEthernet := starts_with "eth" nm || starts_with "en" nm
                   || starts_with "eno" nm || starts_with "enp" nm;
     isModem := starts_with "ppp" nm || starts_with "tun" nm
                || starts_with "tap" nm;
     isActive := nonzero (Z.land (ifa_flags ifa) IFF_UP)
                 && nonzero (Z.land (ifa_flags ifa) IFF_RUNNING) |}.

Definition detect_step (interfaces : list NetworkInterface) (ifa : ifaddrs)
  : list NetworkInterface :=
  match ifa_addr ifa with
  | None => interfaces
  | Some addr =>
      if (sa_family addr =? AF_INET)%Z then
        if String.eqb (ifa_name ifa) "lo"
           || nonzero (Z.land (ifa_flags ifa) IFF_LOOPBACK)
        then interfaces
        else interfaces ++ [detect_entry ifa addr]
      else interfaces
  end.

(** lines 113-161 *)
Definition detectNetworkInterfaces : M Host (list NetworkInterface) :=
  let* r := getifaddrs in
  match r with
  | None => ret []
  | Some ifaddr => ret (fold_left detect_step ifaddr [])
  end.

(** The body of the loop of saveIpListToFile, lines 60-72; the
    accumulator is [(foundIps, atLeastOneIp)]. *)
Definition save_step (filePath : string) (acc : string * bool)
    (interface : NetworkInterface) : M Host (string * bool) :=
  if String.eqb (ipAddress interface) "127.0.0.1"
     || String.eqb (name interface) "lo"
  then ret acc
  else if isActive interface && negb (String.eqb (ipAddress interface) "")
  then
    run ofstream_write filePath (ipAddress interface) then
    run ofstream_write filePath newline then
    ret (fst acc +:+ name interface +:+ "(" +:+ ipAddress interface +:+ ") ",
         true)
  else ret acc.

(** lines 41-86 *)
Definition saveIpListToFile (filePath : string) : M Host bool :=
  let* interfaces := detectNetworkInterfaces in
  run modify (set_interfaces interfaces) then
  let* is_open := ofstream_open filePath in
  if negb is_open then ret false
  else
    let* found := for_each interfaces (save_step filePath) ("", false) in
    if negb (snd found) then
      run cout "No non-loopback network interfaces found" then
      ret true
    else
      run cout ("Found network interfaces: " +:+ fst found) then
      ret true.

(** lines 199-209 *)
Definition notifyNetworkChange : M Host unit :=
  let* interfaces := gets (fun s => m_interfaces (mon s)) in
  let* callbacks := gets (fun s => m_callbacks (mon s)) in
  for_each callbacks (fun _ callback => invoke callback interfaces) tt.

(** One pass through the body of [while (m_running)], lines 97-108,
    up to the sleep; it returns the next [lastInterfaces]. *)
Definition monitorThread_iteration (lastInterfaces : list NetworkInterface)
  : M Host (list NetworkInterface) :=
  let* currentInterfaces := detectNetworkInterfaces in
  run (if haveInterfacesChanged lastInterfaces currentInterfaces
       then
         run modify (set_interfaces currentInterfaces) then
         notifyNetworkChange
       else ret tt) then
  ret currentInterfaces.

(** [sleep_for(5s)]: the loop is idle while the rest of the process and
    the operating system move on; [env] is what they do to the state. *)
Definition sleep_for (env : State Host -> State Host) : M Host unit := modify env.

(** lines 93-111.  The loop runs while [m_running] holds; [ticks] lists
    what happens during each sleep, and the run is observed until
    they are used up. *)
Fixpoint monitorThread_from (lastInterfaces : list NetworkInterface)
    (ticks : list (State Host -> State Host)) : M Host unit :=
  match ticks with
  | [] => ret tt
  | env :: ticks' =>
      let* running := gets (fun s => m_running (mon s)) in
      if running then
        let* last' := monitorThread_iteration lastInterfaces in
        run sleep_for env then
        monitorThread_from last' ticks'
      else ret tt
  end.

Definition monitorThread (ticks : list (State Host -> State Host)) : M Host unit :=
  monitorThread_from [] ticks.

(** ** The relevant set, in the words of the specification

    Active, with a non-empty address other than 127.0.0.1. *)
Definition spec_relevant (iface : NetworkInterface) : bool :=
  isActive iface
  && negb (String.eqb (ipAddress iface) "")
  && negb (String.eqb (ipAddress iface) "127.0.0.1").

Definition spec_RelevantInterfaceSet (snapshot : list NetworkInterface)
  : list NetworkInterface := List.filter spec_relevant snapshot.

(** The text of a file holding one address per line. *)
Definition lines_of (ips : list string) : string :=
  fold_right (fun ip rest => ip +:+ newline +:+ rest) "" ips.

End Members.

(** Where an entry of a snapshot comes from: an AF_INET node of the
    list that is neither named lo nor flagged IFF_LOOPBACK. *)
Definition kept_node (ifa : ifaddrs) (addr : sockaddr) : Prop :=
  ifa_addr ifa = Some addr /\ sa_family addr = AF_INET
  /\ ifa_name ifa <> "lo" /\ Z.land (ifa_flags ifa) IFF_LOOPBACK = 0%Z.

Definition kept_from (ifaddr : list ifaddrs) (e : NetworkInterface) : Prop :=
  exists ifa addr, ifa ∈ ifaddr /\ kept_node ifa addr /\ e = detect_entry ifa addr.

(** The condition under which the loop of saveIpListToFile writes a line. *)
Definition is_written (interface : NetworkInterface) : bool :=
  negb (String.eqb (ipAddress interface) "127.0.0.1"
        || String.eqb (name interface) "lo")
  && (isActive interface && negb (String.eqb (ipAddress interface) "")).

(** A dotted-decimal IPv4 address: what inet_ntop prints for some
    32-bit address. *)
Definition dotted_decimal (ip : string) : Prop :=
  exists a : in_addr, ip = inet_ntop a.

Fixpoint all_chars (P : ascii -> bool) (s : string) : bool :=
  match s with
  | EmptyString => true
  | String c s' => P c && all_chars P s'
  end.

(** The character [c] does not occur in [s]. *)
Definition lacks (c : ascii) (s : string) : bool :=
  all_chars (fun x => negb (Ascii.eqb x c)) s.

Definition digit_or_dot (c : ascii) : bool :=
  Ascii.eqb c "."
  || ((48 <=? nat_of_ascii c)%nat && (nat_of_ascii c <=? 57)%nat).

(** The host binds 127.0.0.1 only to interfaces that are named lo or
    carry IFF_LOOPBACK. *)
Definition loopback_address_confined (ifaddr : list ifaddrs) : Prop :=
  forall ifa addr,
    ifa ∈ ifaddr -> ifa_addr ifa = Some addr ->
    inet_ntop (sin_addr addr) = "127.0.0.1" ->
    ifa_name ifa = "lo" \/ Z.land (ifa_flags ifa) IFF_LOOPBACK <> 0%Z.

(** ** Sample hosts used by the examples *)

(** An entry with the advisory classification flags cleared. *)
Definition iface (nm ip : string) (active : bool) : NetworkInterface :=
  mkNetworkInterface nm ip false false false active.

Definition ipv4 (a b c d : Byte.byte) : option sockaddr :=
  Some (mk_sockaddr AF_INET (mk_in_addr a b c d)).

(** UP|BROADCAST|RUNNING|MULTICAST, 192.168.1.5 *)
Definition os_eth0 : ifaddrs := mk_ifaddrs "eth0" 0x1043 (ipv4 xc0 xa8 x01 x05).
(** UP|BROADCAST|RUNNING|MULTICAST, 192.168.1.9 *)
Definition os_wlan0 : ifaddrs := mk_ifaddrs "wlan0" 0x1043 (ipv4 xc0 xa8 x01 x09).
(** UP|LOOPBACK|RUNNING, 127.0.0.1 *)
Definition os_lo : ifaddrs := mk_ifaddrs "lo" 0x49 (ipv4 x7f x00 x00 x01).
(** BROADCAST|MULTICAST (down), 10.0.0.7 *)
Definition os_eth1_down : ifaddrs := mk_ifaddrs "eth1" 0x1002 (ipv4 x0a x00 x00 x07).
(** UP|BROADCAST|RUNNING|NOARP, a dummy device given 127.0.0.1 *)
Definition os_dummy0 : ifaddrs := mk_ifaddrs "dummy0" 0xc3 (ipv4 x7f x00 x00 x01).

(** BROADCAST|MULTICAST (down), no IPv4 address: only its AF_PACKET node *)
Definition os_wlan0_down : ifaddrs :=
  mk_ifaddrs "wlan0" 0x1002 (Some (mk_sockaddr 17 (mk_in_addr x00 x00 x00 x00))).

(** A freshly constructed monitor on a host with no files, whose
    callbacks keep a log of the snapshots they were handed. *)
Definition Log : Type := list (string * list NetworkInterface).

Definition logger (tag : string) : NetworkChangeCallback Log :=
  fun interfaces log => log ++ [(tag, interfaces)].

Definition sample_state (os : option (list ifaddrs)) (writable : bool)
  : State Log :=
  mkState NetworkMonitor_new (mkWorld os (fun _ => writable) ∅ [] 0 []).

(** The same, after registering the subscribers C1 and then C2. *)
Definition subscribed_state (os : option (list ifaddrs)) : State Log :=
  snd (registerCallback (logger "C2")
         (snd (registerCallback (logger "C1") (sample_state os true)))).

(** * SrtlaRelay: the SRT URL functions of src/srtla-relay.cpp

    [blog] only appends to the log of the host application and is left
    out.  Integers are [Z] with the casts written out. *)

(** ** std::string positions

    A position is a [nat]; [None] stands for [std::string::npos]. *)

Fixpoint str_drop (n : nat) (s : string) : string :=
  match n, s with
  | O, _ => s
  | S n', EmptyString => EmptyString
  | S n', String _ s' => str_drop n' s'
  end.

Fixpoint str_take (n : nat) (s : string) : string :=
  match n, s with
  | O, _ => EmptyString
  | S n', EmptyString => EmptyString
  | S n', String c s' => String c (str_take n' s')
  end.

Fixpoint index_of (c : ascii) (s : string) : option nat :=
  match s with
  | EmptyString => None
  | String a s' => if Ascii.eqb a c then Some O else S <$> index_of c s'
  end.

(** [s.find(c, pos)] *)
Definition str_find (c : ascii) (pos : nat) (s : string) : option nat :=
  (fun i => pos + i) <$> index_of c (str_drop pos s).

(** [s.substr(pos, n)]; [None] is the std::out_of_range thrown when
    [pos] is beyond the end. *)
Definition substr (pos : nat) (n : option nat) (s : string) : option string :=
  if (String.length s <? pos)%nat then None
  else Some (match n with
             | None => str_drop pos s
             | Some k => str_take k (str_drop pos s)
             end).

(** [std::tolower] in the C locale. *)
Definition tolower (c : ascii) : ascii :=
  if ((65 <=? nat_of_ascii c) && (nat_of_ascii c <=? 90))%nat
  then ascii_of_nat (nat_of_ascii c + 32) else c.

Fixpoint str_map (f : ascii -> ascii) (s : string) : string :=
  match s with
  | EmptyString => EmptyString
  | String c s' => String (f c) (str_map f s')
  end.

(** ** std::to_string and std::stoi on int *)

Definition INT_MAX : Z := 2147483647.
Definition INT_MIN : Z := -2147483648.

(** [static_cast<uint16_t>(v)] *)
Definition to_uint16 (v : Z) : Z := v mod 65536.

(** [std::to_string(int)] *)
Definition to_string (v : Z) : string := NilZero.string_of_int (Z.to_int v).

Definition isspace (c : ascii) : bool :=
  ((nat_of_ascii c =? 32) || ((9 <=? nat_of_ascii c) && (nat_of_ascii c <=? 13)))%nat.

Definition isdigit (c : ascii) : bool :=
  ((48 <=? nat_of_ascii c) && (nat_of_ascii c <=? 57))%nat.

Definition digit_of (c : ascii) : option Z :=
  if ((48 <=? nat_of_ascii c) && (nat_of_ascii c <=? 57))%nat
  then Some (Z.of_nat (nat_of_ascii c) - 48)%Z else None.

Fixpoint skip_spaces (s : string) : string :=
  match s with
  | EmptyString => EmptyString
  | String c s' => if isspace c then skip_spaces s' else s
  end.

(** The value of the longest run of digits at the front of [s]. *)
Fixpoint eat_digits (s : string) (acc : Z) : Z :=
  match s with
  | EmptyString => acc
  | String c s' =>
      match digit_of c with
      | Some d => eat_digits s' (10 * acc + d)
      | None => acc
      end
  end.

Definition starts_with_digit (s : string) : bool :=
  match s with
  | EmptyString => false
  | String c _ => bool_decide (is_Some (digit_of c))
  end.

(** [std::stoi(s)]: white space, an optional sign, decimal digits; what
    follows the digits is ignored.  [None] is the exception thrown when
    there is no digit (std::invalid_argument) or the value is not an int
    (std::out_of_range). *)
Definition stoi (s : string) : option Z :=
  let s1 := skip_spaces s in
  let '(negative, s2) :=
    match s1 with
    | String "-" r => (true, r)
    | String "+" r => (false, r)
    | _ => (false, s1)
    end in
  if starts_with_digit s2 then
    let v := if negative : bool then (- eat_digits s2 0)%Z else eat_digits s2 0 in
    if ((INT_MIN <=? v) && (v <=? INT_MAX))%Z then Some v else None
  else None.

(** ** extractSRTParamsFromURL (src/srtla-relay.cpp, lines 451-569)

    The reference parameters [port], [latency] and [streamId] are the
    last three components of the result; [latency] and [streamId] are
    overwritten on entry, so only [port] is an input.  [None] means that
    no result is produced: an exception leaves the function, or the
    budget [fuel] of the parameter loop runs out. *)

(** One parameter [name=value], lines 535-559. *)
Definition apply_param (param : string) (latency : Z) (streamId : string)
  : option (Z * string) :=
  match str_find "=" 0 param with
  | Some nameEnd =>
      name ← substr 0 (Some nameEnd) param;
      value ← substr (nameEnd + 1) None param;
      let nameLower := str_map tolower name in
      if String.eqb nameLower "latency" || String.eqb nameLower "delay" then
        match stoi value with
        | Some v => Some (v, streamId)
        | None => Some (latency, streamId)
        end
      else if String.eqb nameLower "streamid" then Some (latency, value)
      else Some (latency, streamId)
  | None => Some (latency, streamId)
  end.

(** The do-while loop, lines 530-562, entered with [paramStart]. *)
Fixpoint param_loop (fuel : nat) (params : string) (paramStart : nat)
    (latency : Z) (streamId : string) : option (Z * string) :=
  match fuel with
  | O => None
  | S fuel' =>
      let paramEnd := str_find "&" paramStart params in
      param ← substr paramStart ((fun e => e - paramStart) <$> paramEnd) params;
      r ← apply_param param latency streamId;
      match paramEnd with
      | Some e => param_loop fuel' params (e + 1) (fst r) (snd r)
      | None => Some r
      end
  end.

(** The text of a query: parameters separated by ampersands. *)
Fixpoint join_params (first : string) (rest : list string) : string :=
  match rest with
  | [] => first
  | p :: rest' => first +:+ "&" +:+ join_params p rest'
  end.

(** [apply_param] over a list of parameters, from left to right. *)
Fixpoint apply_params (ps : list string) (latency : Z) (streamId : string)
  : option (Z * string) :=
  match ps with
  | [] => Some (latency, streamId)
  | p :: ps' =>
      r ← apply_param p latency streamId;
      apply_params ps' (fst r) (snd r)
  end.

(** The port part, lines 493-519. *)
Definition port_from_hostPort (hostPort : string) (originalPort : Z) : option Z :=
  match str_find ":" 0 hostPort with
  | Some portPos =>
      portStr ← substr (portPos + 1) None hostPort;
      match stoi portStr with
      | Some v =>
          let extractedPort := to_uint16 v in
          if (0 <? extractedPort)%Z then Some extractedPort
          else Some originalPort
      | None => Some originalPort
      end
  | None => Some originalPort
  end.

Definition extractSRTParamsFromURL (url : string) (port : Z)
  : option (bool * Z * Z * string) :=
  let originalPort := port in
  let latency := 2000%Z in
  let streamId := "" in
  if String.eqb url "" then Some (false, originalPort, latency, streamId)
  else
    scheme ← substr 0 (Some 6) url;
    if negb (String.eqb scheme "srt://")
    then Some (false, originalPort, latency, streamId)
    else
      let hostStart := 6 in
      let hostEnd := str_find "?" hostStart url in
      hostPort ← substr hostStart ((fun e => e - hostStart) <$> hostEnd) url;
      port' ← port_from_hostPort hostPort originalPort;
      match hostEnd with
      | Some e =>
          params ← substr (e + 1) None url;
          r ← param_loop (S (String.length params)) params 0 latency streamId;
          Some (true, port', fst r, snd r)
      | None => Some (true, port', latency, streamId)
      end.

(** ** buildSRTURL (src/srtla-relay.cpp, lines 572-602)

    [m_localPort] and [m_latency] are the members the function reads. *)
Definition buildSRTURL (m_localPort m_latency : Z)
    (port latency : Z) (streamId : string) : string :=
  let url :=
    if (0 <? port)%Z then "srt://localhost:" +:+ to_string port
    else "srt://localhost:" +:+ to_string m_localPort in
  let '(url, hasParam) :=
    if negb (String.eqb streamId "")
    then (url +:+ "?streamid=" +:+ streamId, true)
    else (url, false) in
  let usedLatency := if (1000 <=? latency)%Z then latency else m_latency in
  url +:+ ((if hasParam : bool then "&" else "?") +:+ "latency=" +:+ to_string usedLatency).

(** * SrtlaRelay: settings, start-up and the network-change handler *)

(** The data members of the class (srtla-relay.h, lines 94-114), without
    the monitor it owns. *)
Record SrtlaRelay := mkSrtlaRelay {
  m_server : string;
  m_port : Z;
  m_streamId : string;
  m_autoStart : bool;
  m_bidirectionalSync : bool;
  m_latency : Z;
  m_localPort : Z;
  m_useFixedPort : bool;
  m_ipListPath : string;
  m_processRunning : bool;
  m_processId : Z
}.

(** [(int)v] for a [long long] [v]. *)
Definition to_int32 (v : Z) : Z := ((v + 2147483648) mod 4294967296 - 2147483648)%Z.

(** ** loadSettings (src/srtla-relay.cpp, lines 177-233)

    What the function asks of its surroundings: the variable HOME, whether
    a path exists, and the settings object that
    obs_data_create_from_json_file builds from a file ([None] for a null
    pointer).  A settings object is known through its four getters. *)

Record obs_data := mk_obs_data {
  obs_data_get_string : string -> option string;
  obs_data_get_int : string -> Z;
  obs_data_get_bool : string -> bool;
  obs_data_has_user_value : string -> bool
}.

Record SettingsEnv := mkSettingsEnv {
  env_HOME : option string;
  env_exists : string -> bool;
  env_json_file : string -> option obs_data
}.

Definition loadSettings (env : SettingsEnv) (r : SrtlaRelay) : SrtlaRelay :=
  let configPath :=
    match env_HOME env with
    | Some home => home +:+ "/.config/obs-studio/srtla_settings.json"
    | None => "/tmp/srtla_settings.json"
    end in
  let defaults :=
    mkSrtlaRelay "" 3000 "" false (m_bidirectionalSync r) 2000 9000 true
                 (m_ipListPath r) (m_processRunning r) (m_processId r) in
  if negb (env_exists env configPath) then defaults
  else
    match env_json_file env configPath with
    | None => defaults
    | Some settings =>
        let server := default "" (obs_data_get_string settings "srtla_server") in
        let port := to_uint16 (obs_data_get_int settings "srtla_port") in
        let port := if (port =? 0)%Z then 3000%Z else port in
        let streamId := default "" (obs_data_get_string settings "srtla_stream_id") in
        let autoStart := obs_data_get_bool settings "srtla_auto_start" in
        let latency := to_int32 (obs_data_get_int settings "srtla_latency") in
        let latency :=
          if (latency <? 1000)%Z || (8000 <? latency)%Z then 2000%Z else latency in
        let useFixedPort := obs_data_get_bool settings "srtla_use_fixed_port" in
        let localPort := to_uint16 (obs_data_get_int settings "srtla_local_port") in
        let localPort := if (localPort =? 0)%Z then 9000%Z else localPort in
        let bidirectionalSync :=
          obs_data_get_bool settings "srtla_bidirectional_sync" in
        let bidirectionalSync :=
          if negb (obs_data_has_user_value settings "srtla_bidirectional_sync")
          then true else bidirectionalSync in
        mkSrtlaRelay server port streamId autoStart bidirectionalSync latency
                     localPort useFixedPort
                     (m_ipListPath r) (m_processRunning r) (m_processId r)
    end.

(** ** The path of the IP bank file

    std::filesystem as the constructor uses it: which paths are present,
    and whether creating a directory succeeds ([None] is the
    filesystem_error thrown otherwise). *)

Record FS := mkFS {
  fs_present : gset string;
  fs_create_directories_ok : string -> bool;
  fs_create_directory_ok : string -> bool
}.

Definition fs_exists (path : string) (fs : FS) : bool :=
  bool_decide (path ∈ fs_present fs).

Definition fs_create_directories (path : string) (fs : FS) : option FS :=
  if fs_create_directories_ok fs path
  then Some (mkFS ({[path]} ∪ fs_present fs) (fs_create_directories_ok fs)
                  (fs_create_directory_ok fs))
  else None.

Definition fs_create_directory (path : string) (fs : FS) : option FS :=
  if fs_create_directory_ok fs path
  then Some (mkFS ({[path]} ∪ fs_present fs) (fs_create_directories_ok fs)
                  (fs_create_directory_ok fs))
  else None.

(** The constructor, lines 53-87: the value it gives [m_ipListPath].
    [None]: the filesystem_error of line 83 leaves the constructor. *)
Definition SrtlaRelay_ipListPath (home : option string) (fs : FS)
  : option (string * FS) :=
  let tempPath := "~/srtla_relay_temp" in
  let '(tempPath, fs) :=
    match home with
    | Some h =>
        let expandedPath := h +:+ "/srtla_relay_temp" in
        if negb (fs_exists expandedPath fs) then
          match fs_create_directories expandedPath fs with
          | Some fs' => (tempPath, fs')
          | None => ("/tmp/srtla_relay_temp", fs)
          end
        else (tempPath, fs)
    | None => ("/tmp/srtla_relay_temp", fs)
    end in
  r ← (if negb (fs_exists tempPath fs) then
         match fs_create_directories tempPath fs with
         | Some fs' => Some (tempPath, fs')
         | None =>
             fs' ← fs_create_directory "/tmp/srtla_relay_temp" fs;
             Some ("/tmp/srtla_relay_temp", fs')
         end
       else Some (tempPath, fs));
  Some (fst r +:+ "/ip_bank.txt", snd r).

(** startSrtlaProcess, lines 274-280: the path of the file it writes and
    hands to srtla_send. *)
Definition startSrtlaProcess_realIpPath (home : option string) : string :=
  match home with
  | Some h => h +:+ "/srtla_relay_temp/ip_bank.txt"
  | None => "/tmp/srtla_relay_temp/ip_bank.txt"
  end.

(** ** The monitor with its mutex

    Here [m_mutex] is a field: [m_mutex_owned] tells whether the running
    thread owns it.  std::mutex::lock by the owner is undefined
    behaviour; the model stops there with [Relock].  A registered
    callback is kept as an index into a table of handlers, which may call
    back into the monitor; [seq] holds every other member, and its
    [m_callbacks] is not read. *)

Record RelayHost := mkRelayHost {
  relay : SrtlaRelay;
  system_calls : list string;     (* commands passed to system() *)
  sigterm_sent : list Z           (* pids passed to kill(pid, SIGTERM) *)
}.

(** ** stopSrtlaProcess and killSrtlaProcess (lines 387-420) *)

Definition PROCESS_KILL (pid : Z) (h : RelayHost) : RelayHost :=
  mkRelayHost (relay h) (system_calls h) (sigterm_sent h ++ [pid]).

Definition system (command : string) (h : RelayHost) : RelayHost :=
  mkRelayHost (relay h) (system_calls h ++ [command]) (sigterm_sent h).

Definition killSrtlaProcess (h : RelayHost) : RelayHost :=
  if (0 <? m_processId (relay h))%Z then PROCESS_KILL (m_processId (relay h)) h
  else system "pkill -f srtla_send" h.

Definition stopSrtlaProcess (h : RelayHost) : RelayHost :=
  if negb (m_processRunning (relay h)) then h
  else
    let h1 :=
      if (0 <? m_processId (relay h))%Z then PROCESS_KILL (m_processId (relay h)) h
      else killSrtlaProcess h in
    let r := relay h1 in
    mkRelayHost
      (mkSrtlaRelay (m_server r) (m_port r) (m_streamId r) (m_autoStart r)
                    (m_bidirectionalSync r) (m_latency r) (m_localPort r)
                    (m_useFixedPort r) (m_ipListPath r) false (-1))
      (system_calls h1) (sigterm_sent h1).

Module Locked.

Record LState := mkLState {
  m_mutex_owned : bool;
  callback_ids : list nat;
  seq : State RelayHost
}.

Inductive outcome (A : Type) : Type :=
  | Ok (a : A) (s : LState)
  | Relock.
Arguments Ok {A} a s.
Arguments Relock {A}.

Definition LM (A : Type) : Type := LState -> outcome A.

Definition ret {A} (a : A) : LM A := fun s => Ok a s.

Definition bind {A B} (m : LM A) (k : A -> LM B) : LM B :=
  fun s => match m s with
           | Ok a s' => k a s'
           | Relock => Relock
           end.

(** A step that does not concern the mutex. *)
Definition lift {A} (m : M RelayHost A) : LM A :=
  fun s => let (a, q) := m (seq s) in
           Ok a (mkLState (m_mutex_owned s) (callback_ids s) q).

Definition lock : LM unit :=
  fun s => if m_mutex_owned s then Relock
           else Ok tt (mkLState true (callback_ids s) (seq s)).

Definition unlock : LM unit :=
  fun s => Ok tt (mkLState false (callback_ids s) (seq s)).

(** [{ std::lock_guard<std::mutex> lock(m_mutex); body }] *)
Definition lock_guard {A} (body : LM A) : LM A :=
  bind lock (fun _ => bind body (fun a => bind unlock (fun _ => ret a))).

Fixpoint for_each_id (ids : list nat) (body : nat -> LM unit) : LM unit :=
  match ids with
  | [] => ret tt
  | id :: ids' => bind (body id) (fun _ => for_each_id ids' body)
  end.

(** network-monitor.cpp, lines 36-39 *)
Definition getNetworkInterfaces : LM (list NetworkInterface) :=
  lock_guard (lift (gets (fun q => m_interfaces (mon q)))).

(** lines 88-91 *)
Definition registerCallback (id : nat) : LM unit :=
  lock_guard (fun s => Ok tt (mkLState (m_mutex_owned s) (callback_ids s ++ [id])
                                       (seq s))).

(** lines 41-86 *)
Definition saveIpListToFile (filePath : string) : LM bool :=
  bind (lift detectNetworkInterfaces) (fun interfaces =>
  bind (lock_guard (lift (modify (set_interfaces interfaces)))) (fun _ =>
  bind (lift (ofstream_open filePath)) (fun is_open =>
  if negb is_open then ret false
  else
    bind (lift (for_each interfaces (save_step filePath) ("", false)))
         (fun found =>
    if negb (snd found) then
      bind (lift (cout "No non-loopback network interfaces found"))
           (fun _ => ret true)
    else
      bind (lift (cout ("Found network interfaces: " +:+ fst found)))
           (fun _ => ret true))))).

(** srtla-relay.cpp, lines 422-439 *)
Definition onNetworkChange (interfaces : list NetworkInterface) : LM unit :=
  bind (lift (gets (fun q => m_ipListPath (relay (w_host (world q))))))
       (fun path =>
  bind (saveIpListToFile path) (fun _ =>
  bind (lift (gets (fun q => m_processRunning (relay (w_host (world q))))))
       (fun running =>
  if running : bool then
    lift (modify (fun q =>
      set_world
        (set_host (system "killall -HUP srtla_send" (w_host (world q)))
                  (world q)) q))
  else ret tt))).

Section Handlers.
(** What each registered callback does when it is called. *)
Variable handlers : nat -> list NetworkInterface -> LM unit.

(** network-monitor.cpp, lines 199-209 *)
Definition notifyNetworkChange : LM unit :=
  lock_guard
    (bind (lift (gets (fun q => m_interfaces (mon q)))) (fun interfaces =>
     fun s => for_each_id (callback_ids s) (fun id => handlers id interfaces) s)).

(** One pass of the loop of monitorThread, lines 97-108. *)
Definition monitorThread_iteration (lastInterfaces : list NetworkInterface)
  : LM (list NetworkInterface) :=
  bind (lift detectNetworkInterfaces) (fun currentInterfaces =>
  bind (if haveInterfacesChanged lastInterfaces currentInterfaces
        then bind (lock_guard (lift (modify (set_interfaces currentInterfaces))))
                  (fun _ => notifyNetworkChange)
        else ret tt) (fun _ =>
  ret currentInterfaces)).

End Handlers.

(** The table of the plugin: the constructor of SrtlaRelay registers one
    lambda, which calls onNetworkChange (srtla-relay.cpp, lines 95-97). *)
Definition relay_handlers : nat -> list NetworkInterface -> LM unit :=
  fun _ => onNetworkChange.

End Locked.

(** * Properties *)

(** ** Change detection *)

Lemma extractIps_acc (l : list NetworkInterface) (acc : list string) :
  fold_left
    (fun ips iface => if is_usable iface then ips ++ [ipAddress iface] else ips)
    l acc
  = acc ++ map ipAddress (List.filter is_usable l).
Proof.
  revert acc. induction l as [|x l IH]; intros acc; simpl.
  - by rewrite app_nil_r.
  - rewrite IH. destruct (is_usable x); simpl; [|done].
    by rewrite <- app_assoc.
Qed.

Lemma extractIps_filter (l : list NetworkInterface) :
  extractIps l = map ipAddress (List.filter is_usable l).
Proof. unfold extractIps. by rewrite extractIps_acc. Qed.

Lemma extractIps_Permutation (l1 l2 : list NetworkInterface) :
  l1 ≡ₚ l2 -> extractIps l1 ≡ₚ extractIps l2.
Proof.
  intros Hp. rewrite !extractIps_filter.
  apply Permutation_map. induction Hp; simpl.
  - done.
  - destruct (is_usable x); [by constructor|done].
  - destruct (is_usable x), (is_usable y); try done. apply perm_swap.
  - by etrans.
Qed.

Lemma scan_differs_drop (oldIps newIps : list string) (todo i : nat) :
  length oldIps = length newIps -> i + todo = length oldIps ->
  scan_differs oldIps newIps i todo = false <-> drop i oldIps = drop i newIps.
Proof.
  intros Hlen. revert i. induction todo as [|todo IH]; intros i Hi; simpl.
  - rewrite !drop_ge by lia. done.
  - destruct (lookup_lt_is_Some_2 oldIps i) as [a Ha]; [lia|].
    destruct (lookup_lt_is_Some_2 newIps i) as [b Hb]; [lia|].
    rewrite Ha, Hb.
    rewrite (drop_S oldIps a i Ha), (drop_S newIps b i Hb).
    destruct (String.eqb_spec a b) as [->|Hne]; simpl.
    + rewrite IH by lia. split; [by intros ->|by intros [=]].
    + split; [done|]. by intros [=].
Qed.

Lemma std_sort_Permutation (v : list string) : std_sort v ≡ₚ v.
Proof. apply merge_sort_Permutation. Qed.

Lemma std_sort_sorted (v : list string) : StronglySorted String.le (std_sort v).
Proof. apply StronglySorted_merge_sort; apply _. Qed.

Lemma std_sort_canonical (v1 v2 : list string) :
  std_sort v1 = std_sort v2 <-> v1 ≡ₚ v2.
Proof.
  split.
  - intros Heq. rewrite <- (std_sort_Permutation v1), Heq.
    apply std_sort_Permutation.
  - intros Hp. apply (StronglySorted_unique String.le); try apply std_sort_sorted.
    by rewrite !std_sort_Permutation.
Qed.

Lemma haveInterfacesChanged_false (old new : list NetworkInterface) :
  haveInterfacesChanged old new = false <-> extractIps old ≡ₚ extractIps new.
Proof.
  rewrite <- std_sort_canonical. unfold haveInterfacesChanged; simpl.
  destruct (Nat.eqb_spec (length (std_sort (extractIps old)))
                         (length (std_sort (extractIps new)))) as [Hlen|Hlen];
    simpl.
  - by rewrite scan_differs_drop.
  - split; [done|]. intros Heq. by rewrite Heq in Hlen.
Qed.

Lemma NoDup_same_members (v1 v2 : list string) :
  NoDup v1 -> NoDup v2 -> (forall a, a ∈ v1 <-> a ∈ v2) <-> v1 ≡ₚ v2.
Proof.
  intros H1 H2. split.
  - intros Hm. by apply NoDup_Permutation.
  - intros Hp a. by rewrite Hp.
Qed.

(** C1 (as amended): haveInterfacesChanged compares the usable addresses
    of the two snapshots as sorted sequences, that is as multisets.  It
    reports a change exactly when the two address lists are not
    rearrangements of one another; when no usable address occurs twice
    in either snapshot this is exactly a difference in membership; and
    re-ordering the interfaces is never a change. *)
Theorem haveInterfacesChanged_multiset (old new : list NetworkInterface) :
  (haveInterfacesChanged old new = true <->
     ~ extractIps old ≡ₚ extractIps new)
  /\ (NoDup (extractIps old) -> NoDup (extractIps new) ->
      (haveInterfacesChanged old new = true <->
         ~ (forall a, a ∈ extractIps old <-> a ∈ extractIps new)))
  /\ (old ≡ₚ new -> haveInterfacesChanged old new = false).
Proof.
  assert (Hiff : haveInterfacesChanged old new = true <->
                 ~ extractIps old ≡ₚ extractIps new).
  { rewrite <- haveInterfacesChanged_false.
    destruct (haveInterfacesChanged old new); split; done. }
  split; [done|]. split.
  - intros Ho Hn. by rewrite NoDup_same_members.
  - intros Hp. apply haveInterfacesChanged_false.
    by apply extractIps_Permutation.
Qed.

Lemma haveInterfacesChanged_multiset_witness :
  haveInterfacesChanged
    [iface "eth0" "10.0.0.1" true; iface "wlan0" "10.0.0.2" true]
    [iface "wlan0" "10.0.0.2" true; iface "eth0" "10.0.0.1" true] = false.
Proof.
  apply (haveInterfacesChanged_multiset
           [iface "eth0" "10.0.0.1" true; iface "wlan0" "10.0.0.2" true]
           [iface "wlan0" "10.0.0.2" true; iface "eth0" "10.0.0.1" true]).
  apply perm_swap.
Defined.

(** C1 fails as a statement about sets: two interfaces bound to the same
    address and one interface bound to it have the same address set, yet
    a change is reported. *)
Lemma haveInterfacesChanged_counts_duplicates :
  let old := [iface "eth0" "10.0.0.1" true; iface "eth1" "10.0.0.1" true] in
  let new := [iface "eth0" "10.0.0.1" true] in
  (forall a, a ∈ extractIps old <-> a ∈ extractIps new)
  /\ haveInterfacesChanged old new = true.
Proof.
  split; [|by vm_compute].
  intros a. change (a ∈ ["10.0.0.1"; "10.0.0.1"] <-> a ∈ ["10.0.0.1"]).
  rewrite !elem_of_cons, elem_of_nil. tauto.
Qed.

(** The membership examples of the specification, with A = 10.0.0.1,
    B = 10.0.0.2 and C = 10.0.0.3. *)
Example haveInterfacesChanged_membership :
  let A := iface "eth0" "10.0.0.1" true in
  let B := iface "wlan0" "10.0.0.2" true in
  let C := iface "ppp0" "10.0.0.3" true in
  haveInterfacesChanged [A; B] [A; C] = true
  /\ haveInterfacesChanged [A; B] [A; B; C] = true
  /\ haveInterfacesChanged [A; B] [A] = true
  /\ haveInterfacesChanged [A; B] [A; B] = false
  /\ haveInterfacesChanged [A; B] [B; A] = false.
Proof. by vm_compute. Qed.

(** ** Detection *)

Section Detection.
Context {Host : Type}.
Implicit Types (s : State Host) (ifa : ifaddrs) (e : NetworkInterface).

Lemma detect_step_spec (acc : list NetworkInterface) ifa e :
  e ∈ detect_step acc ifa <->
  e ∈ acc \/ exists addr, kept_node ifa addr /\ e = detect_entry ifa addr.
Proof.
  unfold detect_step, kept_node, nonzero.
  destruct (ifa_addr ifa) as [addr|].
  - destruct (Z.eqb_spec (sa_family addr) AF_INET) as [Hfam|Hfam];
      [destruct (String.eqb_spec (ifa_name ifa) "lo") as [Hlo|Hlo];
       [|destruct (Z.eqb_spec (Z.land (ifa_flags ifa) IFF_LOOPBACK) 0)
           as [Hfl|Hfl]]|]; simpl.
    + split; [by left|]. by intros [|(a & (_ & _ & Hn & _) & _)].
    + rewrite elem_of_app, list_elem_of_singleton. split.
      * intros [?| ->]; [by left|]. right. by exists addr.
      * intros [|(a & ([= <-] & _) & ->)]; [by left|by right].
    + split; [by left|]. by intros [|(a & (_ & _ & _ & Hz) & _)].
    + split; [by left|]. intros [|(a & ([= <-] & Hf & _) & _)]; done.
  - split; [by left|]. by intros [|(a & (Hsome & _) & _)].
Qed.

Lemma kept_from_cons ifa (ifaddr : list ifaddrs) e :
  kept_from (ifa :: ifaddr) e <->
  (exists addr, kept_node ifa addr /\ e = detect_entry ifa addr)
  \/ kept_from ifaddr e.
Proof.
  unfold kept_from. split.
  - intros (i & a & [->|Hin]%elem_of_cons & Hk & He).
    + left. by exists a.
    + right. by exists i, a.
  - intros [(a & Hk & He)|(i & a & Hin & Hk & He)].
    + exists ifa, a. split; [by left|done].
    + exists i, a. split; [by right|done].
Qed.

Lemma detect_fold_elem (ifaddr : list ifaddrs) (acc : list NetworkInterface) e :
  e ∈ fold_left detect_step ifaddr acc <-> e ∈ acc \/ kept_from ifaddr e.
Proof.
  revert acc. induction ifaddr as [|ifa l IH]; intros acc; simpl.
  - split; [by left|]. intros [|(i & a & Hin & _)]; [done|].
    by apply elem_of_nil in Hin.
  - rewrite IH, detect_step_spec, kept_from_cons. tauto.
Qed.

Lemma detectNetworkInterfaces_run s :
  detectNetworkInterfaces s =
    (match w_ifaddrs (world s) with
     | None => []
     | Some ifaddr => fold_left detect_step ifaddr []
     end, s).
Proof.
  unfold detectNetworkInterfaces, bind, getifaddrs, gets, ret.
  by destruct (w_ifaddrs (world s)).
Qed.

Lemma detected_name_not_lo s e :
  e ∈ fst (detectNetworkInterfaces s) -> name e <> "lo".
Proof.
  rewrite detectNetworkInterfaces_run; simpl.
  destruct (w_ifaddrs (world s)) as [ifaddr|]; [|by intros ?%elem_of_nil].
  rewrite detect_fold_elem.
  by intros [?%elem_of_nil|(ifa & addr & _ & (_ & _ & Hlo & _) & ->)].
Qed.

(** C2 (as amended): no entry of a detected snapshot is named lo, and
    every entry was built from an enumerated AF_INET node that does not
    carry IFF_LOOPBACK.  Detection does not look at the address: an entry
    can hold 127.0.0.1 only when the host binds that address to an
    interface that is neither named lo nor flagged as loopback. *)
Theorem detectNetworkInterfaces_skips_loopback s e :
  e ∈ fst (detectNetworkInterfaces s) ->
  name e <> "lo"
  /\ exists ifaddr,
       w_ifaddrs (world s) = Some ifaddr /\ kept_from ifaddr e
       /\ (loopback_address_confined ifaddr -> ipAddress e <> "127.0.0.1").
Proof.
  rewrite detectNetworkInterfaces_run; simpl.
  destruct (w_ifaddrs (world s)) as [ifaddr|]; [|by intros ?%elem_of_nil].
  rewrite detect_fold_elem. intros [?%elem_of_nil|Hk]; [done|].
  pose proof Hk as (ifa & addr & Hin & (Ha & Hf & Hlo & Hfl) & ->).
  split; [done|]. exists ifaddr. repeat split; [done|].
  intros Hconf Hip. destruct (Hconf ifa addr Hin Ha Hip); done.
Qed.

(** C6: detectNetworkInterfaces leaves the whole state as it found it
    (stored snapshot, callback list, running flag, and the host state
    that only callbacks change), and its result is determined by what
    the enumeration reports at the time of the call. *)
Theorem detectNetworkInterfaces_frame s :
  snd (detectNetworkInterfaces s) = s
  /\ m_interfaces (mon (snd (detectNetworkInterfaces s))) = m_interfaces (mon s)
  /\ m_callbacks (mon (snd (detectNetworkInterfaces s))) = m_callbacks (mon s)
  /\ w_host (world (snd (detectNetworkInterfaces s))) = w_host (world s)
  /\ fst (detectNetworkInterfaces s)
     = match w_ifaddrs (world s) with
       | Some ifaddr => fold_left detect_step ifaddr []
       | None => []
       end
  /\ forall s' : State Host,
       w_ifaddrs (world s') = w_ifaddrs (world s) ->
       fst (detectNetworkInterfaces s') = fst (detectNetworkInterfaces s).
Proof.
  rewrite detectNetworkInterfaces_run; simpl. repeat split.
  intros s' Heq. rewrite detectNetworkInterfaces_run; simpl. by rewrite Heq.
Qed.

End Detection.

Lemma detectNetworkInterfaces_skips_loopback_witness :
  name (detect_entry os_eth0 (mk_sockaddr AF_INET (mk_in_addr xc0 xa8 x01 x05)))
  <> "lo".
Proof.
  apply (detectNetworkInterfaces_skips_loopback
           (sample_state (Some [os_lo; os_eth0]) true)).
  vm_compute. constructor.
Defined.

(** C2 fails for the address: a device that is neither named lo nor
    flagged IFF_LOOPBACK but is bound to 127.0.0.1 stays in the snapshot. *)
Lemma detectNetworkInterfaces_keeps_loopback_address :
  exists e,
    e ∈ fst (detectNetworkInterfaces
               (sample_state (Some [os_eth0; os_lo; os_dummy0]) true))
    /\ ipAddress e = "127.0.0.1".
Proof.
  exists (mkNetworkInterface "dummy0" "127.0.0.1" false false false true).
  split; [|done]. vm_compute. repeat constructor.
Qed.

Lemma detectNetworkInterfaces_frame_witness :
  fst (detectNetworkInterfaces
         (snd (registerCallback (logger "C1")
                 (sample_state (Some [os_lo; os_eth0]) true))))
  = fst (detectNetworkInterfaces (sample_state (Some [os_lo; os_eth0]) true)).
Proof.
  apply (detectNetworkInterfaces_frame
           (sample_state (Some [os_lo; os_eth0]) true)).
  reflexivity.
Defined.

(** ** Writing the address file *)

Lemma string_app_nil_r (s : string) : s +:+ "" = s.
Proof.
  induction s as [|a s IH]; [done|].
  change (String a (s +:+ "") = String a s). by rewrite IH.
Qed.

Lemma string_app_assoc (s1 s2 s3 : string) :
  (s1 +:+ s2) +:+ s3 = s1 +:+ (s2 +:+ s3).
Proof.
  induction s1 as [|a s1 IH]; [done|].
  change (String a ((s1 +:+ s2) +:+ s3) = String a (s1 +:+ (s2 +:+ s3))).
  by rewrite IH.
Qed.

Section Saving.
Context {Host : Type}.
Implicit Types (s : State Host) (filePath : string).

(** What one pass of the loop leaves behind, given the text [c] already
    in the open file. *)
Lemma save_loop_run filePath (l : list NetworkInterface) :
  forall (acc : string * bool) s (c : string),
    w_files (world s) !! filePath = Some c ->
    exists found s',
      for_each l (save_step filePath) acc s = (found, s')
      /\ mon s' = mon s
      /\ w_files (world s')
         = <[filePath := c +:+ lines_of (map ipAddress (List.filter is_written l))]>
             (w_files (world s))
      /\ w_writable (world s') = w_writable (world s)
      /\ w_ifaddrs (world s') = w_ifaddrs (world s)
      /\ w_stdout (world s') = w_stdout (world s)
      /\ w_threads (world s') = w_threads (world s)
      /\ w_host (world s') = w_host (world s)
      /\ snd found = snd acc || existsb is_written l.
Proof.
  induction l as [|x l IH]; intros acc s c Hc.
  - exists acc, s. simpl. rewrite string_app_nil_r, insert_id by done.
    rewrite orb_false_r. by repeat split.
  - cbn [for_each]. unfold bind at 1, save_step at 1, is_written at 1 2.
    cbn [List.filter existsb].
    destruct (String.eqb (ipAddress x) "127.0.0.1" || String.eqb (name x) "lo").
    { apply (IH acc s c Hc). }
    destruct (isActive x && negb (String.eqb (ipAddress x) "")).
    + set (s2 := snd (ofstream_write filePath newline
                        (snd (ofstream_write filePath (ipAddress x) s)))).
      destruct (IH (fst acc +:+ name x +:+ "(" +:+ ipAddress x +:+ ") ", true)
                   s2 ((c +:+ ipAddress x) +:+ newline))
        as (found & s' & Hrun & Hmon & Hfiles & Hw & Hi & Ho & Ht & Hh & Hfound).
      { subst s2. simpl. rewrite lookup_insert_eq, lookup_insert_eq. simpl.
        by rewrite Hc. }
      exists found, s'. split; [exact Hrun|].
      split; [by rewrite Hmon|].
      split.
      { rewrite Hfiles. subst s2. simpl.
        rewrite !insert_insert_eq. f_equal. simpl.
        by rewrite !string_app_assoc. }
      by rewrite Hw, Hi, Ho, Ht, Hh, Hfound, orb_true_r.
    + apply (IH acc s c Hc).
Qed.

Lemma saveIpListToFile_closed s filePath :
  w_writable (world s) filePath = false ->
  saveIpListToFile filePath s
  = (false, set_interfaces (fst (detectNetworkInterfaces s)) s).
Proof.
  intros Hw. unfold saveIpListToFile, bind at 1.
  rewrite detectNetworkInterfaces_run. cbn [fst].
  unfold bind, modify, ofstream_open. simpl. by rewrite Hw.
Qed.

Lemma saveIpListToFile_open s filePath :
  w_writable (world s) filePath = true ->
  exists s',
    saveIpListToFile filePath s = (true, s')
    /\ mon s' = mon (set_interfaces (fst (detectNetworkInterfaces s)) s)
    /\ w_files (world s')
       = <[filePath := lines_of (map ipAddress
                         (List.filter is_written (fst (detectNetworkInterfaces s))))]>
           (w_files (world s))
    /\ w_host (world s') = w_host (world s)
    /\ w_threads (world s') = w_threads (world s).
Proof.
  intros Hw. unfold saveIpListToFile, bind at 1.
  rewrite detectNetworkInterfaces_run. cbn [fst].
  set (cur := match w_ifaddrs (world s) with
              | Some ifaddr => fold_left detect_step ifaddr []
              | None => []
              end).
  unfold bind at 1, modify at 1. unfold bind at 1, ofstream_open.
  cbn [world set_interfaces]. rewrite Hw. cbn [negb].
  set (s1 := set_world _ _).
  destruct (save_loop_run filePath cur ("", false) s1 "")
    as (found & s' & Hrun & Hmon & Hfiles & _ & _ & _ & Ht & Hh & _).
  { subst s1. simpl. by rewrite lookup_insert_eq. }
  unfold bind at 1. rewrite Hrun.
  assert (Hfiles' : w_files (world s')
                    = <[filePath := lines_of (map ipAddress
                                       (List.filter is_written cur))]>
                        (w_files (world s))).
  { rewrite Hfiles. subst s1. simpl. by rewrite insert_insert_eq. }
  destruct (snd found); cbn [negb]; unfold bind, cout, modify, ret;
    eexists; (split; [reflexivity|]); simpl;
    by rewrite Hmon, Hfiles', Ht, Hh.
Qed.

(** On a detected snapshot the loop writes exactly the relevant set of
    the specification: detection has already dropped the name lo. *)
Lemma is_written_detected s :
  List.filter is_written (fst (detectNetworkInterfaces s))
  = spec_RelevantInterfaceSet (fst (detectNetworkInterfaces s)).
Proof.
  unfold spec_RelevantInterfaceSet. apply filter_ext_in. intros e He.
  apply list_elem_of_In, detected_name_not_lo in He.
  unfold is_written, spec_relevant.
  destruct (String.eqb_spec (name e) "lo") as [Hlo|_]; [done|].
  destruct (isActive e), (String.eqb (ipAddress e) ""),
    (String.eqb (ipAddress e) "127.0.0.1"); done.
Qed.

Lemma detected_address s e :
  e ∈ fst (detectNetworkInterfaces s) ->
  exists a : in_addr, ipAddress e = inet_ntop a.
Proof.
  rewrite detectNetworkInterfaces_run; simpl.
  destruct (w_ifaddrs (world s)) as [ifaddr|]; [|by intros ?%elem_of_nil].
  rewrite detect_fold_elem.
  intros [?%elem_of_nil|(ifa & addr & _ & _ & ->)]; [done|].
  by exists (sin_addr addr).
Qed.

(** C3: the call fails exactly when the destination cannot be opened.
    When the relevant set of the detected snapshot is empty no address
    line is written (an opened destination is left empty, an unopened
    one untouched), and the call succeeds whenever the open did. *)
Theorem saveIpListToFile_fails_only_on_open s filePath :
  (fst (saveIpListToFile filePath s) = false <->
     w_writable (world s) filePath = false)
  /\ (spec_RelevantInterfaceSet (fst (detectNetworkInterfaces s)) = [] ->
      w_files (world (snd (saveIpListToFile filePath s)))
      = (if w_writable (world s) filePath
         then <[filePath := ""]> (w_files (world s))
         else w_files (world s))
      /\ (w_writable (world s) filePath = true ->
          fst (saveIpListToFile filePath s) = true)).
Proof.
  destruct (w_writable (world s) filePath) eqn:Hw.
  - destruct (saveIpListToFile_open s filePath Hw)
      as (s' & -> & _ & Hfiles & _).
    split; [done|]. intros Hempty. split; [|done]. simpl.
    by rewrite Hfiles, is_written_detected, Hempty.
  - rewrite (saveIpListToFile_closed s filePath Hw). by split.
Qed.

(** C7: after a successful call the destination holds the addresses of
    the relevant interfaces of the detected snapshot, in snapshot order,
    each followed by a newline and nothing else; every one of them is a
    dotted-decimal IPv4 address. *)
Theorem saveIpListToFile_format s filePath :
  fst (saveIpListToFile filePath s) = true ->
  let relevant :=
    map ipAddress (spec_RelevantInterfaceSet (fst (detectNetworkInterfaces s))) in
  w_files (world (snd (saveIpListToFile filePath s))) !! filePath
  = Some (lines_of relevant)
  /\ Forall dotted_decimal relevant.
Proof.
  intros Hok relevant. split.
  - destruct (w_writable (world s) filePath) eqn:Hw.
    + destruct (saveIpListToFile_open s filePath Hw)
        as (s' & -> & _ & Hfiles & _).
      simpl. rewrite Hfiles, lookup_insert_eq.
      by rewrite is_written_detected.
    + by rewrite (saveIpListToFile_closed s filePath Hw) in Hok.
  - apply Forall_forall. intros ip Hip. subst relevant.
    apply list_elem_of_fmap in Hip as (e & -> & He).
    apply list_elem_of_In, filter_In in He as [He _].
    by apply (detected_address s), list_elem_of_In.
Qed.

(** C10: the snapshot is stored before the destination is opened.  The
    accessor returns the fresh detection result after every call, and a
    call that fails on the open has changed the stored snapshot and
    nothing else. *)
Theorem saveIpListToFile_stores_before_open s filePath :
  fst (getNetworkInterfaces (snd (saveIpListToFile filePath s)))
  = fst (detectNetworkInterfaces s)
  /\ (w_writable (world s) filePath = false ->
      saveIpListToFile filePath s
      = (false, set_interfaces (fst (detectNetworkInterfaces s)) s)).
Proof.
  split; [|apply saveIpListToFile_closed].
  destruct (w_writable (world s) filePath) eqn:Hw.
  - destruct (saveIpListToFile_open s filePath Hw) as (s' & -> & Hmon & _).
    unfold getNetworkInterfaces, gets. simpl. by rewrite Hmon.
  - by rewrite (saveIpListToFile_closed s filePath Hw).
Qed.

End Saving.

(** Every character inet_ntop prints is a digit or a dot, and it prints
    at least one: an address is never a blank line and never spans two. *)
Lemma all_chars_app (P : ascii -> bool) (s1 s2 : string) :
  all_chars P (s1 +:+ s2) = all_chars P s1 && all_chars P s2.
Proof.
  induction s1 as [|c s1 IH]; [done|].
  change (P c && all_chars P (s1 +:+ s2) = P c && all_chars P s1 && all_chars P s2).
  by rewrite IH, andb_assoc.
Qed.

Lemma octet_to_string_digits (b : Byte.byte) :
  all_chars digit_or_dot (octet_to_string b) = true
  /\ octet_to_string b <> "".
Proof. by destruct b. Qed.

Lemma inet_ntop_shape (a : in_addr) :
  all_chars digit_or_dot (inet_ntop a) = true /\ inet_ntop a <> "".
Proof.
  unfold inet_ntop. split.
  - rewrite !all_chars_app.
    rewrite (proj1 (octet_to_string_digits (o1 a))),
      (proj1 (octet_to_string_digits (o2 a))),
      (proj1 (octet_to_string_digits (o3 a))),
      (proj1 (octet_to_string_digits (o4 a))). done.
  - pose proof (proj2 (octet_to_string_digits (o1 a))) as Hne.
    by destruct (octet_to_string (o1 a)).
Qed.

Lemma saveIpListToFile_fails_only_on_open_witness :
  fst (saveIpListToFile "/tmp/ip_bank.txt"
         (sample_state (Some [os_lo; os_eth1_down]) true)) = true.
Proof.
  apply (saveIpListToFile_fails_only_on_open
           (sample_state (Some [os_lo; os_eth1_down]) true) "/tmp/ip_bank.txt");
    reflexivity.
Defined.

Lemma saveIpListToFile_format_witness :
  w_files (world (snd (saveIpListToFile "/tmp/ip_bank.txt"
                         (sample_state (Some [os_eth0; os_wlan0_down; os_lo]) true))))
    !! "/tmp/ip_bank.txt"
  = Some ("192.168.1.5" +:+ newline).
Proof.
  apply (saveIpListToFile_format
           (sample_state (Some [os_eth0; os_wlan0_down; os_lo]) true)
           "/tmp/ip_bank.txt").
  reflexivity.
Defined.

Lemma saveIpListToFile_stores_before_open_witness :
  saveIpListToFile "/nonexistent/ip_bank.txt" (sample_state (Some [os_eth0]) false)
  = (false,
     set_interfaces
       (fst (detectNetworkInterfaces (sample_state (Some [os_eth0]) false)))
       (sample_state (Some [os_eth0]) false)).
Proof.
  apply (saveIpListToFile_stores_before_open
           (sample_state (Some [os_eth0]) false) "/nonexistent/ip_bank.txt").
  reflexivity.
Defined.

(** ** The poll loop *)

Section PollLoop.
Context {Host : Type}.
Implicit Types (s : State Host) (last : list NetworkInterface).

Lemma registerCallback_order s (c1 c2 : NetworkChangeCallback Host) :
  m_callbacks (mon (snd (registerCallback c2 (snd (registerCallback c1 s)))))
  = m_callbacks (mon s) ++ [c1; c2].
Proof. simpl. by rewrite <- app_assoc. Qed.

Lemma fan_out_run (callbacks : list (NetworkChangeCallback Host))
    (v : list NetworkInterface) s :
  for_each callbacks (fun _ callback => invoke callback v) tt s
  = (tt, set_world
           (set_host (fold_left (fun h callback => callback v h) callbacks
                                (w_host (world s)))
                     (world s)) s).
Proof.
  revert s. induction callbacks as [|cb cbs IH]; intros s.
  - by destruct s as [m []].
  - cbn [for_each fold_left]. unfold bind, invoke at 1, modify.
    by rewrite IH.
Qed.

Lemma notifyNetworkChange_run s :
  notifyNetworkChange s
  = (tt, set_world
           (set_host (fold_left (fun h callback => callback (m_interfaces (mon s)) h)
                                (m_callbacks (mon s)) (w_host (world s)))
                     (world s)) s).
Proof. unfold notifyNetworkChange, bind, gets. apply fan_out_run. Qed.

Lemma monitorThread_iteration_run s last :
  monitorThread_iteration last s
  = (fst (detectNetworkInterfaces s),
     if haveInterfacesChanged last (fst (detectNetworkInterfaces s))
     then snd (notifyNetworkChange
                 (set_interfaces (fst (detectNetworkInterfaces s)) s))
     else s).
Proof.
  unfold monitorThread_iteration, bind at 1.
  rewrite detectNetworkInterfaces_run. cbn [fst].
  destruct (haveInterfacesChanged last _); unfold bind, modify, ret; [|done].
  by destruct (notifyNetworkChange _) as [[] s'].
Qed.

(** C4: in an iteration that detects a change the fan-out runs from the
    state in which the fresh snapshot is already stored; the callbacks
    run one after the other in the order of [m_callbacks], which is the
    order of registration, and each is handed that same snapshot. *)
Theorem monitorThread_fan_out s last :
  haveInterfacesChanged last (fst (detectNetworkInterfaces s)) = true ->
  let cur := fst (detectNetworkInterfaces s) in
  let s' := snd (monitorThread_iteration last s) in
  s' = snd (notifyNetworkChange (set_interfaces cur s))
  /\ fst (getNetworkInterfaces s') = cur
  /\ w_host (world s')
     = fold_left (fun h callback => callback cur h)
                 (m_callbacks (mon s)) (w_host (world s))
  /\ (forall c1 c2 : NetworkChangeCallback Host,
        m_callbacks (mon s) = [c1; c2] ->
        w_host (world s') = c2 cur (c1 cur (w_host (world s)))).
Proof.
  intros Hch cur s'. subst s'. rewrite monitorThread_iteration_run, Hch.
  fold cur. cbn [snd]. rewrite notifyNetworkChange_run.
  simpl. repeat split. intros c1 c2 ->. done.
Qed.

(** C5 (as amended): an iteration always hands the snapshot it detected
    to the next one as [lastInterfaces], but it replaces the stored
    snapshot only when it detects a change; otherwise the stored snapshot
    stays as it was.  If the stored snapshot and [lastInterfaces] had the
    same usable addresses before, the stored snapshot and the detected
    one have the same usable addresses afterwards. *)
Theorem monitorThread_iteration_snapshot s last :
  let cur := fst (detectNetworkInterfaces s) in
  let s' := snd (monitorThread_iteration last s) in
  fst (monitorThread_iteration last s) = cur
  /\ fst (getNetworkInterfaces s')
     = (if haveInterfacesChanged last cur then cur
        else fst (getNetworkInterfaces s))
  /\ (extractIps (m_interfaces (mon s)) ≡ₚ extractIps last ->
      extractIps (fst (getNetworkInterfaces s')) ≡ₚ extractIps cur).
Proof.
  intros cur s'. subst s'. rewrite monitorThread_iteration_run. fold cur.
  destruct (haveInterfacesChanged last cur) eqn:Hch.
  - cbn [fst snd]. rewrite notifyNetworkChange_run. simpl. by repeat split.
  - repeat split. intros Hinv. simpl. rewrite Hinv.
    by apply haveInterfacesChanged_false.
Qed.

(** C8: when getifaddrs fails the detection result is empty; the
    iteration then does what it does after an enumeration that succeeded
    with no interfaces, takes the same decision as for any snapshot
    without usable addresses, leaves the running flag alone, and the
    loop goes on to its next iteration. *)
Theorem monitorThread_survives_enumeration_failure s last :
  w_ifaddrs (world s) = None ->
  fst (detectNetworkInterfaces s) = []
  /\ (let s0 := set_world (set_ifaddrs (Some []) (world s)) s in
      fst (monitorThread_iteration last s) = fst (monitorThread_iteration last s0)
      /\ snd (monitorThread_iteration last s)
         = set_world (set_ifaddrs None (world (snd (monitorThread_iteration last s0))))
                     (snd (monitorThread_iteration last s0)))
  /\ (forall snapshot,
        extractIps snapshot = [] ->
        haveInterfacesChanged last (fst (detectNetworkInterfaces s))
        = haveInterfacesChanged last snapshot)
  /\ m_running (mon (snd (monitorThread_iteration last s))) = m_running (mon s)
  /\ (forall env ticks,
        m_running (mon s) = true ->
        monitorThread_from last (env :: ticks) s
        = monitorThread_from [] ticks (env (snd (monitorThread_iteration last s)))).
Proof.
  intros Hfail.
  assert (Hcur : fst (detectNetworkInterfaces s) = []).
  { rewrite detectNetworkInterfaces_run. by rewrite Hfail. }
  split; [done|]. split; [|split; [|split]].
  - cbv zeta. rewrite !monitorThread_iteration_run, Hcur.
    rewrite !(detectNetworkInterfaces_run (set_world _ s)). cbn [fst snd].
    rewrite !notifyNetworkChange_run.
    destruct s as [m [i w f o t h]]. simpl in Hfail. subst i. simpl.
    split; [done|]. by destruct (haveInterfacesChanged last []).
  - intros snapshot Hnone. rewrite Hcur. unfold haveInterfacesChanged.
    by rewrite Hnone.
  - rewrite monitorThread_iteration_run.
    destruct (haveInterfacesChanged last _); [|done].
    by rewrite notifyNetworkChange_run.
  - intros env ticks Hrun. cbn [monitorThread_from].
    unfold bind at 1, gets at 1. rewrite Hrun.
    unfold bind at 1. rewrite monitorThread_iteration_run, Hcur.
    cbn [fst snd]. unfold bind, sleep_for, modify. done.
Qed.

(** C9: start on a running monitor does nothing and launches nothing;
    two calls to start in a row leave what one call leaves, with exactly
    one more poll loop launched; stop on a stopped monitor does nothing;
    stop changes the running flag only, involves no thread, and calling
    it again changes nothing further. *)
Theorem start_stop_idempotent s :
  (m_running (mon s) = true -> start s = (tt, s))
  /\ (m_running (mon s) = false ->
      start (snd (start s)) = start s
      /\ m_running (mon (snd (start (snd (start s))))) = true
      /\ w_threads (world (snd (start (snd (start s)))))
         = S (w_threads (world s)))
  /\ (m_running (mon s) = false -> stop s = (tt, s))
  /\ (m_running (mon (snd (stop s))) = false
      /\ m_interfaces (mon (snd (stop s))) = m_interfaces (mon s)
      /\ m_callbacks (mon (snd (stop s))) = m_callbacks (mon s)
      /\ world (snd (stop s)) = world s)
  /\ stop (snd (stop s)) = stop s.
Proof.
  unfold start, stop, bind, gets, modify, launch_monitorThread, ret.
  destruct s as [[[] v cbs] w]; simpl; repeat split; done.
Qed.

End PollLoop.

Lemma monitorThread_fan_out_witness :
  let s := subscribed_state (Some [os_lo; os_eth0]) in
  w_host (world (snd (monitorThread_iteration [] s)))
  = [("C1", fst (detectNetworkInterfaces s));
     ("C2", fst (detectNetworkInterfaces s))].
Proof.
  intros s.
  destruct (monitorThread_fan_out s [] eq_refl) as (_ & _ & _ & Hboth).
  apply (Hboth (logger "C1") (logger "C2")). reflexivity.
Defined.

(** C5 fails when nothing usable changed: an interface that is down
    appears, no change is detected, and the stored snapshot stays empty
    although the iteration detected one entry. *)
Lemma monitorThread_keeps_stored_snapshot :
  let s := sample_state (Some [os_eth1_down]) true in
  fst (getNetworkInterfaces (snd (monitorThread_iteration [] s)))
  <> fst (detectNetworkInterfaces s).
Proof. by vm_compute. Qed.

Lemma monitorThread_iteration_snapshot_witness :
  let s := sample_state (Some [os_eth1_down; os_eth0]) true in
  extractIps (fst (getNetworkInterfaces (snd (monitorThread_iteration [] s))))
  ≡ₚ extractIps (fst (detectNetworkInterfaces s)).
Proof.
  intros s.
  apply (monitorThread_iteration_snapshot s []). reflexivity.
Defined.

Lemma monitorThread_survives_enumeration_failure_witness :
  fst (detectNetworkInterfaces (subscribed_state None)) = [].
Proof.
  apply (monitorThread_survives_enumeration_failure (subscribed_state None) []).
  reflexivity.
Defined.

Lemma start_stop_idempotent_witness :
  start (snd (start (sample_state (Some [os_eth0]) true)))
  = start (sample_state (Some [os_eth0]) true).
Proof.
  apply (start_stop_idempotent (sample_state (Some [os_eth0]) true)).
  reflexivity.
Defined.

(** The scenario of the specification: eth0 is up with 192.168.1.5,
    wlan0 is down without an address, lo carries 127.0.0.1.  The file
    gets the single line of eth0; when wlan0 comes up with 192.168.1.9
    the next iteration reports a change and both subscribers are handed
    the snapshot with the two addresses. *)
Example end_to_end :
  let s := subscribed_state (Some [os_eth0; os_wlan0_down; os_lo]) in
  let first := monitorThread_iteration [] s in
  let saved := saveIpListToFile "/tmp/ip_bank.txt" (snd first) in
  let later :=
    set_world (set_ifaddrs (Some [os_eth0; os_wlan0; os_lo]) (world (snd saved)))
              (snd saved) in
  let second := monitorThread_iteration (fst first) later in
  w_files (world (snd saved)) !! "/tmp/ip_bank.txt"
    = Some ("192.168.1.5" +:+ newline)
  /\ haveInterfacesChanged (fst first) (fst second) = true
  /\ map ipAddress (fst second) = ["192.168.1.5"; "192.168.1.9"]
  /\ w_host (world (snd second))
     = [("C1", fst first); ("C2", fst first);
        ("C1", fst second); ("C2", fst second)].
Proof. by vm_compute. Qed.

(** * Further properties of the monitor *)

(** ** Change detection as a relation on snapshots *)

(** X1: "no change" is an equivalence between snapshots: a snapshot never
    differs from itself, the verdict does not depend on which snapshot is
    the old one, and two unchanged polls in a row compose. *)
Theorem haveInterfacesChanged_equivalence :
  (forall l, haveInterfacesChanged l l = false)
  /\ (forall a b, haveInterfacesChanged a b = haveInterfacesChanged b a)
  /\ (forall a b c,
        haveInterfacesChanged a b = false ->
        haveInterfacesChanged b c = false ->
        haveInterfacesChanged a c = false).
Proof.
  split; [|split].
  - intros l. by apply haveInterfacesChanged_false.
  - intros a b.
    destruct (haveInterfacesChanged a b) eqn:Hab,
             (haveInterfacesChanged b a) eqn:Hba; try done.
    + apply haveInterfacesChanged_false in Hba. symmetry in Hba.
      apply haveInterfacesChanged_false in Hba. congruence.
    + apply haveInterfacesChanged_false in Hab. symmetry in Hab.
      apply haveInterfacesChanged_false in Hab. congruence.
  - intros a b c Hab%haveInterfacesChanged_false Hbc%haveInterfacesChanged_false.
    apply haveInterfacesChanged_false. by etrans.
Qed.

Lemma haveInterfacesChanged_equivalence_witness :
  haveInterfacesChanged
    [iface "eth0" "10.0.0.1" true; iface "wlan0" "10.0.0.2" true]
    [iface "eth0" "10.0.0.1" true; iface "wlan0" "10.0.0.2" true; iface "eth1" "" true]
  = false.
Proof.
  apply (proj2 (proj2 haveInterfacesChanged_equivalence)
           _ [iface "wlan0" "10.0.0.2" true; iface "eth0" "10.0.0.1" true]);
    reflexivity.
Defined.

Lemma extractIps_app (l1 l2 : list NetworkInterface) :
  extractIps (l1 ++ l2) = extractIps l1 ++ extractIps l2.
Proof. by rewrite !extractIps_filter, List.filter_app, map_app. Qed.

Lemma extractIps_unusable (x : NetworkInterface) (l1 l2 : list NetworkInterface) :
  is_usable x = false -> extractIps (l1 ++ x :: l2) = extractIps (l1 ++ l2).
Proof.
  intros Hx. rewrite !extractIps_app. f_equal.
  rewrite !extractIps_filter. simpl. by rewrite Hx.
Qed.

(** X2: an interface that is down, has no address, holds 127.0.0.1 or is
    named lo does not count: putting it into, or taking it out of, either
    snapshot at any position leaves the verdict as it was. *)
Theorem haveInterfacesChanged_ignores_unusable
    (x : NetworkInterface) (l1 l2 other : list NetworkInterface) :
  isActive x = false \/ ipAddress x = "" \/ ipAddress x = "127.0.0.1"
    \/ name x = "lo" ->
  haveInterfacesChanged (l1 ++ x :: l2) other
    = haveInterfacesChanged (l1 ++ l2) other
  /\ haveInterfacesChanged other (l1 ++ x :: l2)
     = haveInterfacesChanged other (l1 ++ l2).
Proof.
  intros Hx.
  assert (Hu : is_usable x = false).
  { unfold is_usable. destruct Hx as [-> | [-> | [-> | ->]]]; simpl;
      rewrite ?andb_false_r; done. }
  unfold haveInterfacesChanged. by rewrite (extractIps_unusable x l1 l2 Hu).
Qed.

Lemma haveInterfacesChanged_ignores_unusable_witness :
  haveInterfacesChanged
    [iface "eth0" "10.0.0.1" true; iface "eth1" "10.0.0.7" false] []
  = haveInterfacesChanged [iface "eth0" "10.0.0.1" true] [].
Proof.
  apply (haveInterfacesChanged_ignores_unusable
           (iface "eth1" "10.0.0.7" false) [iface "eth0" "10.0.0.1" true] [] []).
  by left.
Defined.

Lemma haveInterfacesChanged_from_nil (cur : list NetworkInterface) :
  haveInterfacesChanged [] cur = true <-> exists e, e ∈ cur /\ is_usable e = true.
Proof.
  split.
  - intros Hch. destruct (extractIps cur) as [|ip ips] eqn:Hips.
    + assert (haveInterfacesChanged [] cur = false); [|congruence].
      apply haveInterfacesChanged_false. by rewrite Hips.
    + assert (Hin : ip ∈ extractIps cur) by (rewrite Hips; left).
      rewrite extractIps_filter in Hin.
      apply list_elem_of_In, in_map_iff in Hin as (e & _ & [He Hu]%filter_In).
      exists e. by rewrite list_elem_of_In.
  - intros (e & He & Hu).
    destruct (haveInterfacesChanged [] cur) eqn:Hch; [done|].
    apply haveInterfacesChanged_false in Hch.
    change (extractIps []) with (@nil string) in Hch.
    apply Permutation.Permutation_nil in Hch.
    assert (Hin : ipAddress e ∈ extractIps cur).
    { rewrite extractIps_filter. apply list_elem_of_In, in_map, filter_In.
      by rewrite <- list_elem_of_In. }
    rewrite Hch in Hin. by apply elem_of_nil in Hin.
Qed.

(** ** Detection *)

Lemma starts_with_head (a : ascii) (p s : string) :
  starts_with (String a p) s = true ->
  exists s', s = String a s' /\ starts_with p s' = true.
Proof.
  unfold starts_with. destruct s as [|b s']; simpl; [done|].
  destruct (ascii_dec a b) as [->|]; [|done]. intros Hp. by exists s'.
Qed.

Lemma starts_with_app (p q s : string) :
  starts_with (p +:+ q) s = true -> starts_with p s = true.
Proof.
  revert s. induction p as [|a p IH]; intros s.
  - by destruct s.
  - change (String a p +:+ q) with (String a (p +:+ q)).
    intros (s' & -> & Hp)%starts_with_head. apply IH in Hp.
    unfold starts_with in *. simpl. by destruct (ascii_dec a a).
Qed.

(** X3: the three classification flags depend on the name only, the
    tests for eno, enp and wlan add nothing to those for en and wl, and
    no entry gets more than one of the flags. *)
Theorem detect_entry_classification (ifa : ifaddrs) (addr : sockaddr) :
  let e := detect_entry ifa addr in
  isEthernet e
    = (starts_with "eth" (ifa_name ifa) || starts_with "en" (ifa_name ifa))
  /\ isWireless e
     = (starts_with "wifi" (ifa_name ifa) || starts_with "wl" (ifa_name ifa))
  /\ isEthernet e && isWireless e = false
  /\ isEthernet e && isModem e = false
  /\ isWireless e && isModem e = false.
Proof.
  simpl.
  pose proof (starts_with_app "en" "o" (ifa_name ifa)) as Heno.
  pose proof (starts_with_app "en" "p" (ifa_name ifa)) as Henp.
  pose proof (starts_with_app "wl" "an" (ifa_name ifa)) as Hwlan.
  change ("en" +:+ "o") with "eno" in Heno.
  change ("en" +:+ "p") with "enp" in Henp.
  change ("wl" +:+ "an") with "wlan" in Hwlan.
  pose proof (starts_with_head "e" "th" (ifa_name ifa)) as Heth.
  pose proof (starts_with_head "e" "n" (ifa_name ifa)) as Hen.
  pose proof (starts_with_head "w" "ifi" (ifa_name ifa)) as Hwifi.
  pose proof (starts_with_head "w" "l" (ifa_name ifa)) as Hwl.
  pose proof (starts_with_head "p" "pp" (ifa_name ifa)) as Hppp.
  pose proof (starts_with_head "t" "un" (ifa_name ifa)) as Htun.
  pose proof (starts_with_head "t" "ap" (ifa_name ifa)) as Htap.
  destruct (starts_with "eth" (ifa_name ifa)), (starts_with "en" (ifa_name ifa)),
    (starts_with "eno" (ifa_name ifa)), (starts_with "enp" (ifa_name ifa)),
    (starts_with "wlan" (ifa_name ifa)), (starts_with "wifi" (ifa_name ifa)),
    (starts_with "wl" (ifa_name ifa)), (starts_with "ppp" (ifa_name ifa)),
    (starts_with "tun" (ifa_name ifa)), (starts_with "tap" (ifa_name ifa));
    simpl; repeat split; try done;
    repeat match goal with
           | H : true = true -> _ |- _ => specialize (H eq_refl)
           | H : false = true -> _ |- _ => clear H
           | H : exists _, _ |- _ => destruct H as (? & ? & _)
           end;
    congruence.
Qed.

Lemma string_length_app (s1 s2 : string) :
  String.length (s1 +:+ s2) = String.length s1 + String.length s2.
Proof.
  induction s1 as [|a s1 IH]; [done|].
  change (S (String.length (s1 +:+ s2)) = S (String.length s1 + String.length s2)).
  by rewrite IH.
Qed.

Lemma octet_to_string_length (b : Byte.byte) :
  1 <= String.length (octet_to_string b) <= 3.
Proof. destruct b; vm_compute; lia. Qed.

Lemma inet_ntop_length (a : in_addr) :
  7 <= String.length (inet_ntop a) <= 15.
Proof.
  unfold inet_ntop. rewrite !string_length_app. simpl.
  pose proof (octet_to_string_length (o1 a)).
  pose proof (octet_to_string_length (o2 a)).
  pose proof (octet_to_string_length (o3 a)).
  pose proof (octet_to_string_length (o4 a)).
  lia.
Qed.

Lemma detect_step_acc (acc : list NetworkInterface) (ifa : ifaddrs) :
  detect_step acc ifa = acc ++ detect_step [] ifa.
Proof.
  unfold detect_step. destruct (ifa_addr ifa) as [addr|]; [|by rewrite app_nil_r].
  destruct (sa_family addr =? AF_INET)%Z; [|by rewrite app_nil_r].
  destruct (_ || _); [by rewrite app_nil_r|done].
Qed.

Lemma detect_fold_acc (l : list ifaddrs) (acc : list NetworkInterface) :
  fold_left detect_step l acc = acc ++ fold_left detect_step l [].
Proof.
  revert acc. induction l as [|ifa l IH]; intros acc; simpl.
  - by rewrite app_nil_r.
  - rewrite IH, (IH (detect_step [] ifa)), detect_step_acc. by rewrite app_assoc.
Qed.

(** X6: the enumeration loop works node by node: the snapshot of a list
    of nodes is the snapshot of its front followed by the snapshot of its
    rest, and the names in a snapshot are names of the enumeration, in
    the order of the enumeration, at most one entry per node. *)
Theorem detection_keeps_enumeration_order (l1 l2 : list ifaddrs) :
  fold_left detect_step (l1 ++ l2) []
    = fold_left detect_step l1 [] ++ fold_left detect_step l2 []
  /\ map name (fold_left detect_step l1 []) `sublist_of` map ifa_name l1
  /\ length (fold_left detect_step l1 []) <= length l1.
Proof.
  assert (Hsub : forall l, map name (fold_left detect_step l [])
                           `sublist_of` map ifa_name l).
  { induction l as [|ifa l IH]; simpl; [done|].
    rewrite detect_fold_acc, map_app.
    unfold detect_step at 1.
    destruct (ifa_addr ifa) as [addr|]; [|by apply sublist_cons].
    destruct (sa_family addr =? AF_INET)%Z; [|by apply sublist_cons].
    destruct (_ || _); [by apply sublist_cons|].
    simpl. by apply sublist_skip. }
  split; [|split].
  - by rewrite fold_left_app, detect_fold_acc.
  - apply Hsub.
  - specialize (Hsub l1). apply sublist_length in Hsub.
    by rewrite !length_map in Hsub.
Qed.

Section DetectedEntries.
Context {Host : Type}.
Implicit Types (s : State Host) (e : NetworkInterface).

(** X4: the address of every detected entry fits the buffer [ipStr]:
    between 7 and 15 characters, so at most INET_ADDRSTRLEN with its
    terminating NUL. *)
Theorem detected_address_fits_buffer s e :
  e ∈ fst (detectNetworkInterfaces s) ->
  7 <= String.length (ipAddress e)
  /\ String.length (ipAddress e) + 1 <= INET_ADDRSTRLEN.
Proof.
  intros (a & ->)%detected_address.
  pose proof (inet_ntop_length a). unfold INET_ADDRSTRLEN. lia.
Qed.

(** X5: on a detected snapshot the filter of change detection reduces
    to two tests: an entry counts exactly when the interface is up and
    running and its address is not 127.0.0.1; the tests for an empty
    address and for the name lo never fire. *)
Theorem detected_entry_usable s e :
  e ∈ fst (detectNetworkInterfaces s) ->
  is_usable e = (isActive e && negb (String.eqb (ipAddress e) "127.0.0.1")).
Proof.
  intros He. pose proof (detected_name_not_lo s e He) as Hlo.
  apply detected_address in He as (a & Ha).
  pose proof (proj2 (inet_ntop_shape a)) as Hne. rewrite <- Ha in Hne.
  unfold is_usable.
  destruct (String.eqb_spec (name e) "lo"); [done|].
  destruct (String.eqb_spec (ipAddress e) ""); [done|].
  destruct (isActive e), (String.eqb (ipAddress e) "127.0.0.1"); done.
Qed.

End DetectedEntries.

Lemma detected_address_fits_buffer_witness :
  String.length "192.168.1.5" + 1 <= INET_ADDRSTRLEN.
Proof.
  apply (detected_address_fits_buffer
           (sample_state (Some [os_lo; os_eth0]) true)
           (detect_entry os_eth0 (mk_sockaddr AF_INET (mk_in_addr xc0 xa8 x01 x05)))).
  vm_compute. constructor.
Defined.

Lemma detected_entry_usable_witness :
  is_usable (detect_entry os_eth0 (mk_sockaddr AF_INET (mk_in_addr xc0 xa8 x01 x05)))
  = true.
Proof.
  rewrite (detected_entry_usable (sample_state (Some [os_lo; os_eth0]) true)).
  - reflexivity.
  - vm_compute. constructor.
Defined.

(** ** The address file *)

Lemma is_written_usable (x : NetworkInterface) : is_written x = is_usable x.
Proof.
  unfold is_written, is_usable.
  destruct (isActive x), (String.eqb (ipAddress x) ""),
    (String.eqb (ipAddress x) "127.0.0.1"), (String.eqb (name x) "lo"); done.
Qed.

Lemma written_addresses (l : list NetworkInterface) :
  map ipAddress (List.filter is_written l) = extractIps l.
Proof.
  rewrite extractIps_filter. f_equal. apply filter_ext.
  intros x. apply is_written_usable.
Qed.

Section SavingFrame.
Context {Host : Type}.
Implicit Types (s : State Host) (filePath : string).

Lemma saveIpListToFile_open_world s filePath :
  w_writable (world s) filePath = true ->
  exists s',
    saveIpListToFile filePath s = (true, s')
    /\ w_ifaddrs (world s') = w_ifaddrs (world s)
    /\ w_writable (world s') = w_writable (world s).
Proof.
  intros Hw. unfold saveIpListToFile, bind at 1.
  rewrite detectNetworkInterfaces_run. cbn [fst].
  set (cur := match w_ifaddrs (world s) with
              | Some ifaddr => fold_left detect_step ifaddr []
              | None => []
              end).
  unfold bind at 1, modify at 1. unfold bind at 1, ofstream_open.
  cbn [world set_interfaces]. rewrite Hw. cbn [negb].
  set (s1 := set_world _ _).
  destruct (save_loop_run filePath cur ("", false) s1 "")
    as (found & s' & Hrun & _ & _ & Hwr & Hif & _).
  { subst s1. simpl. by rewrite lookup_insert_eq. }
  unfold bind at 1. rewrite Hrun.
  destruct (snd found); cbn [negb]; unfold bind, cout, modify, ret;
    eexists; (split; [reflexivity|]); simpl; by rewrite Hwr, Hif.
Qed.

Lemma saveIpListToFile_world s filePath :
  w_ifaddrs (world (snd (saveIpListToFile filePath s))) = w_ifaddrs (world s)
  /\ w_writable (world (snd (saveIpListToFile filePath s))) = w_writable (world s).
Proof.
  destruct (w_writable (world s) filePath) eqn:Hw.
  - by destruct (saveIpListToFile_open_world s filePath Hw) as (s' & -> & ? & ?).
  - by rewrite (saveIpListToFile_closed s filePath Hw).
Qed.

(** X7: saveIpListToFile touches the stored snapshot, the destination
    file and std::cout, and nothing else: it fires no callback, launches
    no thread, keeps the running flag and the callback list, and leaves
    every other file as it was. *)
Theorem saveIpListToFile_frame s filePath :
  let s' := snd (saveIpListToFile filePath s) in
  m_running (mon s') = m_running (mon s)
  /\ m_callbacks (mon s') = m_callbacks (mon s)
  /\ w_host (world s') = w_host (world s)
  /\ w_threads (world s') = w_threads (world s)
  /\ w_ifaddrs (world s') = w_ifaddrs (world s)
  /\ w_writable (world s') = w_writable (world s)
  /\ forall other : string,
       other <> filePath ->
       w_files (world s') !! other = w_files (world s) !! other.
Proof.
  cbv zeta. destruct (w_writable (world s) filePath) eqn:Hw.
  - destruct (saveIpListToFile_open_world s filePath Hw) as (s'' & Hrun' & Hif & Hwr).
    destruct (saveIpListToFile_open s filePath Hw)
      as (s' & Hrun & Hmon & Hfiles & Hh & Ht).
    rewrite Hrun in Hrun'. injection Hrun' as <-.
    rewrite Hrun. cbn [snd]. rewrite Hmon, Hfiles, Hh, Ht, Hif, Hwr.
    repeat split. intros other Hne. by rewrite lookup_insert_ne.
  - by rewrite (saveIpListToFile_closed s filePath Hw).
Qed.

(** X8: the lines saveIpListToFile writes are the addresses change
    detection compares.  So for two hosts, the poll loop sees no change
    between their snapshots exactly when the files written for them hold
    the same lines up to their order. *)
Theorem saveIpListToFile_agrees_with_change_detection
    (s1 s2 : State Host) filePath :
  fst (saveIpListToFile filePath s1) = true ->
  fst (saveIpListToFile filePath s2) = true ->
  exists ips1 ips2 : list string,
    w_files (world (snd (saveIpListToFile filePath s1))) !! filePath
      = Some (lines_of ips1)
    /\ w_files (world (snd (saveIpListToFile filePath s2))) !! filePath
       = Some (lines_of ips2)
    /\ ips1 = extractIps (fst (detectNetworkInterfaces s1))
    /\ ips2 = extractIps (fst (detectNetworkInterfaces s2))
    /\ (haveInterfacesChanged (fst (detectNetworkInterfaces s1))
                              (fst (detectNetworkInterfaces s2)) = false
        <-> ips1 ≡ₚ ips2).
Proof.
  intros Hok1 Hok2.
  assert (Hfile : forall s, fst (saveIpListToFile filePath s) = true ->
            w_files (world (snd (saveIpListToFile filePath s))) !! filePath
            = Some (lines_of (extractIps (fst (detectNetworkInterfaces s))))).
  { intros s Hok. destruct (w_writable (world s) filePath) eqn:Hw.
    - destruct (saveIpListToFile_open s filePath Hw) as (s' & -> & _ & Hfiles & _).
      simpl. by rewrite Hfiles, lookup_insert_eq, written_addresses.
    - by rewrite (saveIpListToFile_closed s filePath Hw) in Hok. }
  eexists _, _. split; [by apply Hfile|]. split; [by apply Hfile|].
  repeat split; apply haveInterfacesChanged_false.
Qed.

(** X9: the destination is rewritten, not appended to: a second call on
    an unchanged host gives the result, the stored snapshot and the
    files of the first. *)
Theorem saveIpListToFile_idempotent s filePath :
  let s1 := snd (saveIpListToFile filePath s) in
  let s2 := snd (saveIpListToFile filePath s1) in
  fst (saveIpListToFile filePath s1) = fst (saveIpListToFile filePath s)
  /\ mon s2 = mon s1
  /\ w_files (world s2) = w_files (world s1).
Proof.
  cbv zeta.
  pose proof (saveIpListToFile_world s filePath) as (Hif & Hwr).
  set (s1 := snd (saveIpListToFile filePath s)) in *.
  assert (Hcur : fst (detectNetworkInterfaces s1) = fst (detectNetworkInterfaces s)).
  { rewrite !detectNetworkInterfaces_run. simpl. by rewrite Hif. }
  destruct (w_writable (world s) filePath) eqn:Hw.
  - assert (Hw1 : w_writable (world s1) filePath = true) by by rewrite Hwr.
    destruct (saveIpListToFile_open s1 filePath Hw1)
      as (s2 & -> & Hmon2 & Hfiles2 & _).
    destruct (saveIpListToFile_open s filePath Hw)
      as (s1' & Hrun1 & Hmon1 & Hfiles1 & _).
    subst s1. rewrite Hrun1 in *. cbn [fst snd] in *.
    rewrite Hmon2, Hfiles2, Hcur, Hfiles1. simpl. rewrite Hmon1. simpl.
    by rewrite insert_insert_eq.
  - assert (Hw1 : w_writable (world s1) filePath = false) by by rewrite Hwr.
    rewrite (saveIpListToFile_closed s1 filePath Hw1), Hcur.
    subst s1. rewrite (saveIpListToFile_closed s filePath Hw). by simpl.
Qed.

End SavingFrame.

Lemma saveIpListToFile_agrees_with_change_detection_witness :
  exists ips1 ips2 : list string,
    w_files (world (snd (saveIpListToFile "/tmp/ip_bank.txt"
                           (sample_state (Some [os_eth0; os_wlan0]) true))))
      !! "/tmp/ip_bank.txt" = Some (lines_of ips1)
    /\ w_files (world (snd (saveIpListToFile "/tmp/ip_bank.txt"
                              (sample_state (Some [os_wlan0; os_lo; os_eth0]) true))))
         !! "/tmp/ip_bank.txt" = Some (lines_of ips2)
    /\ ips1 ≡ₚ ips2.
Proof.
  destruct (saveIpListToFile_agrees_with_change_detection
              (sample_state (Some [os_eth0; os_wlan0]) true)
              (sample_state (Some [os_wlan0; os_lo; os_eth0]) true)
              "/tmp/ip_bank.txt" eq_refl eq_refl)
    as (ips1 & ips2 & H1 & H2 & _ & _ & Hiff).
  exists ips1, ips2. split; [exact H1|]. split; [exact H2|].
  apply Hiff. reflexivity.
Defined.

(** ** The poll loop *)

Section PollLoopFrame.
Context {Host : Type}.
Implicit Types (s : State Host) (last : list NetworkInterface).

(** X10: on the first pass of the loop, where [lastInterfaces] is empty,
    a change is reported exactly when the detected snapshot has a usable
    entry; on a host without one the first pass stores nothing and calls
    nobody. *)
Theorem monitorThread_first_iteration s :
  let cur := fst (detectNetworkInterfaces s) in
  (haveInterfacesChanged [] cur = true <->
     exists e, e ∈ cur /\ is_usable e = true)
  /\ ((forall e, e ∈ cur -> is_usable e = false) ->
      monitorThread_iteration [] s = (cur, s)).
Proof.
  intros cur. split; [apply haveInterfacesChanged_from_nil|].
  intros Hnone. rewrite monitorThread_iteration_run. fold cur.
  destruct (haveInterfacesChanged [] cur) eqn:Hch; [|done].
  apply haveInterfacesChanged_from_nil in Hch as (e & He & Hu).
  by rewrite (Hnone e He) in Hu.
Qed.

(** X11: a pass of the loop over an enumeration equal to the one of the
    pass before it changes nothing: no snapshot is stored and no callback
    runs, whatever else happened to the state in between. *)
Theorem monitorThread_quiet_when_stable s (s' : State Host) last :
  w_ifaddrs (world s') = w_ifaddrs (world s) ->
  monitorThread_iteration (fst (monitorThread_iteration last s)) s'
  = (fst (monitorThread_iteration last s), s').
Proof.
  intros Hsame. rewrite !monitorThread_iteration_run. cbn [fst].
  rewrite !detectNetworkInterfaces_run. cbn [fst]. rewrite Hsame.
  by rewrite (proj2 (haveInterfacesChanged_false _ _)).
Qed.

(** X12: the loop tests the running flag before every pass: on a stopped
    monitor it does nothing at all, and once the flag is cleared during
    a sleep no further pass is made. *)
Theorem monitorThread_observes_stop s last :
  (forall ticks,
     m_running (mon s) = false -> monitorThread_from last ticks s = (tt, s))
  /\ (forall env ticks,
        m_running (mon s) = true ->
        m_running (mon (env (snd (monitorThread_iteration last s)))) = false ->
        monitorThread_from last (env :: ticks) s
        = (tt, env (snd (monitorThread_iteration last s)))).
Proof.
  assert (Hstopped : forall (st : State Host) l ticks,
            m_running (mon st) = false -> monitorThread_from l ticks st = (tt, st)).
  { intros st l [|env ticks] Hoff; [done|].
    cbn [monitorThread_from]. unfold bind, gets. by rewrite Hoff. }
  split; [apply Hstopped|].
  intros env ticks Hon Hoff. cbn [monitorThread_from].
  unfold bind at 1, gets at 1. rewrite Hon. unfold bind at 1.
  destruct (monitorThread_iteration last s) as [cur s1].
  unfold bind, sleep_for, modify. by apply Hstopped.
Qed.


(** X14: stop followed by start on a running monitor launches one more
    poll loop; stop itself never takes a launch back. *)
Theorem stop_start_launches_again s :
  m_running (mon s) = true ->
  w_threads (world (snd (stop s))) = w_threads (world s)
  /\ w_threads (world (snd (start (snd (stop s))))) = S (w_threads (world s))
  /\ m_running (mon (snd (start (snd (stop s))))) = true.
Proof. by destruct s as [[[] v cbs] w]. Qed.

End PollLoopFrame.

Lemma monitorThread_first_iteration_witness :
  monitorThread_iteration [] (subscribed_state (Some [os_lo; os_eth1_down]))
  = (fst (detectNetworkInterfaces (subscribed_state (Some [os_lo; os_eth1_down]))),
     subscribed_state (Some [os_lo; os_eth1_down])).
Proof.
  apply (monitorThread_first_iteration
           (subscribed_state (Some [os_lo; os_eth1_down]))).
  intros e He. vm_compute in He.
  apply list_elem_of_singleton in He as ->. reflexivity.
Defined.

Lemma monitorThread_quiet_when_stable_witness :
  let s := subscribed_state (Some [os_lo; os_eth0]) in
  let s1 := snd (monitorThread_iteration [] s) in
  monitorThread_iteration (fst (monitorThread_iteration [] s)) s1
  = (fst (monitorThread_iteration [] s), s1).
Proof.
  intros s s1. apply (monitorThread_quiet_when_stable s s1 []). reflexivity.
Defined.

Lemma monitorThread_observes_stop_witness :
  let s := snd (start (subscribed_state (Some [os_eth0]))) in
  monitorThread_from [] [(fun st => snd (stop st)); id; id] s
  = (tt, snd (stop (snd (monitorThread_iteration [] s)))).
Proof.
  intros s.
  apply (proj2 (monitorThread_observes_stop s [])
           (fun st => snd (stop st)) [id; id]); reflexivity.
Defined.

Lemma stop_start_launches_again_witness :
  let s := snd (start (sample_state (Some [os_eth0]) true)) in
  w_threads (world (snd (start (snd (stop s))))) = 2.
Proof.
  intros s. apply (stop_start_launches_again s). reflexivity.
Defined.

(** * Properties of the SRT URL functions *)

(** ** Positions in strings *)

Lemma str_drop_length (n : nat) (s : string) :
  String.length (str_drop n s) = String.length s - n.
Proof.
  revert s. induction n as [|n IH]; intros [|c s]; simpl; done.
Qed.

Lemma str_take_length (n : nat) (s : string) :
  String.length (str_take n s) = n `min` String.length s.
Proof.
  revert s. induction n as [|n IH]; intros [|c s]; simpl; try done.
  by rewrite IH.
Qed.

Lemma str_drop_app (a b : string) (k : nat) :
  str_drop (String.length a + k) (a +:+ b) = str_drop k b.
Proof.
  induction a as [|c a IH]; [done|].
  change (String c a +:+ b) with (String c (a +:+ b)). apply IH.
Qed.

Lemma str_drop_app_length (a b : string) :
  str_drop (String.length a) (a +:+ b) = b.
Proof. by rewrite <- (Nat.add_0_r (String.length a)), str_drop_app. Qed.

Lemma str_take_app_length (a b : string) :
  str_take (String.length a) (a +:+ b) = a.
Proof.
  induction a as [|c a IH]; [done|].
  change (String c a +:+ b) with (String c (a +:+ b)). simpl. by rewrite IH.
Qed.

Lemma index_of_lt (c : ascii) (s : string) (i : nat) :
  index_of c s = Some i -> i < String.length s.
Proof.
  revert i. induction s as [|a s IH]; intros i; simpl; [done|].
  destruct (Ascii.eqb a c); [intros [= <-]; lia|].
  destruct (index_of c s) as [j|]; [|done].
  intros [= <-]. specialize (IH j eq_refl). lia.
Qed.

Lemma str_find_bounds (c : ascii) (pos : nat) (s : string) (i : nat) :
  str_find c pos s = Some i -> pos <= i < String.length s.
Proof.
  unfold str_find. destruct (index_of c (str_drop pos s)) as [j|] eqn:Hj; [|done].
  intros [= <-]. apply index_of_lt in Hj. rewrite str_drop_length in Hj. lia.
Qed.

Lemma substr_in_range (pos : nat) (n : option nat) (s : string) :
  pos <= String.length s ->
  substr pos n s
  = Some (match n with
          | None => str_drop pos s
          | Some k => str_take k (str_drop pos s)
          end).
Proof.
  intros Hpos. unfold substr.
  by destruct (Nat.ltb_spec (String.length s) pos); [lia|].
Qed.

Lemma all_chars_impl (P Q : ascii -> bool) (s : string) :
  (forall c, P c = true -> Q c = true) ->
  all_chars P s = true -> all_chars Q s = true.
Proof.
  intros HPQ. induction s as [|c s IH]; simpl; [done|].
  intros [Hc Hs]%andb_prop. by rewrite (HPQ c Hc), IH.
Qed.

Lemma index_of_app_absent (c : ascii) (a b : string) :
  all_chars (fun x => negb (Ascii.eqb x c)) a = true ->
  index_of c (a +:+ b) = (fun i => String.length a + i) <$> index_of c b.
Proof.
  induction a as [|x a IH]; simpl.
  - intros _. change ("" +:+ b) with b. by destruct (index_of c b).
  - intros [Hx Ha]%andb_prop.
    change (String x a +:+ b) with (String x (a +:+ b)). simpl.
    destruct (Ascii.eqb x c); [done|]. rewrite (IH Ha).
    by destruct (index_of c b).
Qed.

Lemma index_of_absent (c : ascii) (a : string) :
  all_chars (fun x => negb (Ascii.eqb x c)) a = true -> index_of c a = None.
Proof.
  induction a as [|x a IH]; simpl; [done|].
  intros [Hx Ha]%andb_prop. destruct (Ascii.eqb x c); [done|].
  by rewrite (IH Ha).
Qed.

Lemma str_find_app (c : ascii) (a b : string) (k : nat) :
  str_find c (String.length a + k) (a +:+ b)
  = (fun i => String.length a + i) <$> str_find c k b.
Proof.
  unfold str_find. rewrite str_drop_app.
  destruct (index_of c (str_drop k b)); simpl; [f_equal; lia|done].
Qed.

Lemma str_find_app_length (c : ascii) (a b : string) :
  str_find c (String.length a) (a +:+ b)
  = (fun i => String.length a + i) <$> str_find c 0 b.
Proof. by rewrite <- (Nat.add_0_r (String.length a)) at 1; rewrite str_find_app. Qed.

Lemma str_find_first (c : ascii) (a b : string) :
  all_chars (fun x => negb (Ascii.eqb x c)) a = true ->
  str_find c 0 (a +:+ String c b) = Some (String.length a).
Proof.
  intros Ha. unfold str_find. simpl str_drop.
  rewrite (index_of_app_absent c a _ Ha). simpl. rewrite Ascii.eqb_refl. simpl.
  f_equal. lia.
Qed.

Lemma str_find_none (c : ascii) (a : string) :
  all_chars (fun x => negb (Ascii.eqb x c)) a = true -> str_find c 0 a = None.
Proof. intros Ha. unfold str_find. simpl str_drop. by rewrite index_of_absent. Qed.

(** ** std::stoi reads back what std::to_string prints *)

Lemma uint_string_digits (d : Decimal.uint) :
  all_chars isdigit (NilEmpty.string_of_uint d) = true.
Proof. induction d; simpl; done. Qed.

Lemma eat_digits_acc (d : Decimal.uint) (acc : positive) :
  eat_digits (NilEmpty.string_of_uint d) (Z.pos acc)
  = Z.pos (Pos.of_uint_acc d acc).
Proof.
  revert acc. induction d; intros acc; simpl; [done|..];
    match goal with
    | |- context [Z.of_nat (nat_of_ascii ?c)] =>
        let n := eval vm_compute in (Z.of_nat (nat_of_ascii c)) in
        change (Z.of_nat (nat_of_ascii c)) with n
    end;
    match goal with
    | |- eat_digits _ ?v = _ =>
        match goal with
        | |- _ = Z.pos (Pos.of_uint_acc _ ?a) =>
            replace v with (Z.pos a) by lia
        end
    end; apply IHd.
Qed.

Lemma eat_digits_uint (d : Decimal.uint) :
  eat_digits (NilEmpty.string_of_uint d) 0 = Z.of_N (Pos.of_uint d).
Proof.
  induction d; simpl; [done|apply IHd|..]; apply (eat_digits_acc d).
Qed.

Lemma pos_string (p : positive) :
  exists c s,
    NilZero.string_of_uint (Pos.to_uint p) = String c s
    /\ isdigit c = true
    /\ all_chars isdigit (String c s) = true
    /\ eat_digits (String c s) 0 = Z.pos p.
Proof.
  pose proof (DecimalPos.Unsigned.to_uint_nonnil p) as Hnil.
  pose proof (DecimalPos.Unsigned.of_to p) as Hof.
  pose proof (uint_string_digits (Pos.to_uint p)) as Hdig.
  pose proof (eat_digits_uint (Pos.to_uint p)) as Heat.
  rewrite Hof in Heat. unfold NilZero.string_of_uint.
  destruct (Pos.to_uint p) as [|d|d|d|d|d|d|d|d|d|d] eqn:Hd; [done|..];
    eexists _, _; (split; [reflexivity|]); (split; [reflexivity|]);
    split; assumption.
Qed.

Lemma isdigit_not_space (c : ascii) : isdigit c = true -> isspace c = false.
Proof.
  unfold isdigit, isspace. intros [H1 H2]%andb_prop.
  apply Nat.leb_le in H1, H2.
  destruct (Nat.eqb_spec (nat_of_ascii c) 32); [lia|].
  destruct (Nat.leb_spec 9 (nat_of_ascii c)), (Nat.leb_spec (nat_of_ascii c) 13);
    simpl; try done; lia.
Qed.

Lemma stoi_digits (c : ascii) (s : string) :
  isdigit c = true ->
  (eat_digits (String c s) 0 <= INT_MAX)%Z ->
  (0 <= eat_digits (String c s) 0)%Z ->
  stoi (String c s) = Some (eat_digits (String c s) 0).
Proof.
  intros Hc Hmax Hmin. unfold stoi.
  cbn [skip_spaces]. rewrite (isdigit_not_space c Hc).
  assert (Hminus : c <> "-"%char) by (intros ->; done).
  assert (Hplus : c <> "+"%char) by (intros ->; done).
  assert (Hsign : (match String c s with
                   | String "-" r => (true, r)
                   | String "+" r => (false, r)
                   | _ => (false, String c s)
                   end) = (false, String c s)).
  { destruct c as [[] [] [] [] [] [] [] []]; try done. }
  rewrite Hsign. unfold starts_with_digit, digit_of. fold (isdigit c).
  rewrite Hc.
  rewrite bool_decide_true by eauto.
  destruct (Z.leb_spec INT_MIN (eat_digits (String c s) 0)),
    (Z.leb_spec (eat_digits (String c s) 0) INT_MAX); cbn [andb]; try done;
    unfold INT_MIN, INT_MAX in *; lia.
Qed.

Lemma stoi_to_string (v : Z) :
  (INT_MIN <= v <= INT_MAX)%Z -> stoi (to_string v) = Some v.
Proof.
  intros Hv. unfold to_string. destruct v as [|p|p]; [done|..].
  - simpl. destruct (pos_string p) as (c & s & -> & Hc & _ & Heat).
    rewrite <- Heat.
    apply stoi_digits; [done|rewrite Heat..]; unfold INT_MAX in *; lia.
  - simpl. destruct (pos_string p) as (c & s & -> & Hc & _ & Heat).
    unfold stoi. cbn [skip_spaces]. change (isspace "-") with false.
    cbv iota. unfold starts_with_digit, digit_of. fold (isdigit c). rewrite Hc.
    rewrite bool_decide_true by eauto. rewrite Heat.
    destruct (Z.leb_spec INT_MIN (- Z.pos p)), (Z.leb_spec (- Z.pos p) INT_MAX);
      simpl; try done; unfold INT_MIN, INT_MAX in *; lia.
Qed.

Lemma to_string_chars (v : Z) :
  all_chars (fun c => isdigit c || Ascii.eqb c "-") (to_string v) = true.
Proof.
  unfold to_string. destruct v as [|p|p]; [done|..]; simpl.
  - destruct (pos_string p) as (c & s & -> & _ & Hall & _).
    revert Hall. apply all_chars_impl. by intros x ->.
  - destruct (pos_string p) as (c & s & -> & _ & Hall & _).
    change (all_chars (λ c0, isdigit c0 || Ascii.eqb c0 "-") (String c s) = true).
    revert Hall. apply all_chars_impl. by intros x ->.
Qed.

Lemma to_string_without (v : Z) (c : ascii) :
  isdigit c = false -> c <> "-"%char ->
  all_chars (fun x => negb (Ascii.eqb x c)) (to_string v) = true.
Proof.
  intros Hd Hm. generalize (to_string_chars v). apply all_chars_impl.
  intros x [Hx|Hx]%orb_prop.
  - destruct (Ascii.eqb_spec x c) as [->|]; [congruence|done].
  - apply Ascii.eqb_eq in Hx as ->. by destruct (Ascii.eqb_spec "-"%char c).
Qed.

(** ** No exception leaves the parser *)

Lemma apply_param_total (param : string) (latency : Z) (streamId : string) :
  is_Some (apply_param param latency streamId).
Proof.
  unfold apply_param.
  destruct (str_find "=" 0 param) as [nameEnd|] eqn:Hfind; [|done].
  apply str_find_bounds in Hfind.
  rewrite !substr_in_range by lia. simpl.
  destruct (_ || _); [by destruct (stoi _)|].
  by destruct (String.eqb _ _).
Qed.

Lemma param_loop_total (fuel : nat) (params : string) :
  forall (paramStart : nat) (latency : Z) (streamId : string),
    paramStart <= String.length params ->
    String.length params - paramStart < fuel ->
    is_Some (param_loop fuel params paramStart latency streamId).
Proof.
  induction fuel as [|fuel IH]; intros paramStart latency streamId Hle Hfuel;
    [lia|].
  cbn [param_loop]. rewrite substr_in_range by done. simpl.
  destruct (apply_param_total
              (match (λ e : nat, e - paramStart) <$> str_find "&" paramStart params with
               | Some k => str_take k (str_drop paramStart params)
               | None => str_drop paramStart params
               end) latency streamId) as [r ->].
  simpl. destruct (str_find "&" paramStart params) as [e|] eqn:Hfind; [|done].
  apply str_find_bounds in Hfind. apply IH; lia.
Qed.

Lemma port_from_hostPort_range (hostPort : string) (originalPort : Z) :
  exists p, port_from_hostPort hostPort originalPort = Some p
            /\ (p = originalPort \/ (1 <= p <= 65535)%Z).
Proof.
  unfold port_from_hostPort.
  destruct (str_find ":" 0 hostPort) as [portPos|] eqn:Hfind; [|by eauto].
  apply str_find_bounds in Hfind. rewrite substr_in_range by lia. simpl.
  destruct (stoi _) as [v|]; [|by eauto].
  destruct (Z.ltb_spec 0 (to_uint16 v)); [|by eauto].
  eexists; split; [done|]. right. unfold to_uint16 in *.
  pose proof (Z.mod_pos_bound v 65536). lia.
Qed.

Lemma scheme_length (url : string) :
  str_take 6 url = "srt://" -> 6 <= String.length url.
Proof.
  intros Hs. pose proof (str_take_length 6 url) as Hl.
  rewrite Hs in Hl. change (String.length "srt://") with 6 in Hl. lia.
Qed.

Lemma str_take_prefix (p s : string) :
  String.eqb (str_take (String.length p) s) p = starts_with p s.
Proof.
  unfold starts_with. revert s. induction p as [|a p IH]; intros [|b s]; simpl;
    try done.
  destruct (ascii_dec a b) as [->|Hne].
  - by rewrite Ascii.eqb_refl, IH.
  - destruct (Ascii.eqb_spec b a) as [->|]; done.
Qed.

Lemma scheme_prefix (url : string) :
  String.eqb (str_take 6 url) "srt://" = starts_with "srt://" url.
Proof. apply (str_take_prefix "srt://"). Qed.

Lemma extractSRTParamsFromURL_result (url : string) (port : Z) :
  exists p l sid,
    extractSRTParamsFromURL url port = Some (starts_with "srt://" url, p, l, sid)
    /\ (starts_with "srt://" url = false -> p = port /\ l = 2000%Z /\ sid = "")
    /\ (p = port \/ (1 <= p <= 65535)%Z).
Proof.
  unfold extractSRTParamsFromURL.
  destruct (String.eqb_spec url "") as [->|Hne].
  { exists port, 2000%Z, "". repeat split; try done; by left. }
  rewrite (substr_in_range 0) by lia. cbn [mbind option_bind].
  change (str_take 6 (str_drop 0 url)) with (str_take 6 url).
  rewrite scheme_prefix.
  destruct (starts_with "srt://" url) eqn:Hscheme; cbn [negb].
  2:{ exists port, 2000%Z, "". repeat split; try done; by left. }
  rewrite <- scheme_prefix in Hscheme. apply String.eqb_eq, scheme_length in Hscheme.
  rewrite (substr_in_range 6) by done. cbn [mbind option_bind].
  destruct (port_from_hostPort_range
              (match (λ e : nat, e - 6) <$> str_find "?" 6 url with
               | Some k => str_take k (str_drop 6 url)
               | None => str_drop 6 url
               end) port) as (p & -> & Hp).
  cbn [mbind option_bind]. destruct (str_find "?" 6 url) as [e|] eqn:Hfind.
  - apply str_find_bounds in Hfind. rewrite substr_in_range by lia.
    cbn [mbind option_bind].
    destruct (param_loop_total (S (String.length (str_drop (e + 1) url)))
                (str_drop (e + 1) url) 0 2000%Z "") as [r ->]; [lia..|].
    cbn [mbind option_bind]. exists p, (fst r), (snd r). repeat split; try done; by left.
  - exists p, 2000%Z, "". repeat split; try done; by left.
Qed.

(** ** The shape of a parsed URL *)

Lemma extract_without_params (hp : string) (port : Z) :
  lacks "?" hp = true ->
  extractSRTParamsFromURL ("srt://" +:+ hp) port
  = p ← port_from_hostPort hp port; Some (true, p, 2000%Z, "").
Proof.
  intros Hq. unfold extractSRTParamsFromURL.
  change (String.eqb ("srt://" +:+ hp) "") with false. cbv iota.
  rewrite (substr_in_range 0) by lia. cbn [mbind option_bind].
  change (str_drop 0 ("srt://" +:+ hp)) with ("srt://" +:+ hp).
  change (str_take 6) with (str_take (String.length "srt://")).
  rewrite str_take_app_length.
  change (negb (String.eqb "srt://" "srt://")) with false. cbv iota.
  change (str_find "?" 6) with (str_find "?" (String.length "srt://" + 0)).
  rewrite str_find_app, (str_find_none "?" hp Hq).
  rewrite (substr_in_range 6)
    by (rewrite string_length_app; change (String.length "srt://") with 6; lia).
  cbn [fmap option_fmap option_map mbind option_bind].
  change (str_drop 6) with (str_drop (String.length "srt://")).
  by rewrite str_drop_app_length.
Qed.

Lemma extract_with_params (hp ps : string) (port : Z) :
  lacks "?" hp = true ->
  extractSRTParamsFromURL ("srt://" +:+ hp +:+ "?" +:+ ps) port
  = p ← port_from_hostPort hp port;
    r ← param_loop (S (String.length ps)) ps 0 2000%Z "";
    Some (true, p, fst r, snd r).
Proof.
  intros Hq. unfold extractSRTParamsFromURL.
  set (rest := hp +:+ "?" +:+ ps).
  change (String.eqb ("srt://" +:+ rest) "") with false. cbv iota.
  rewrite (substr_in_range 0) by lia. cbn [mbind option_bind].
  change (str_drop 0 ("srt://" +:+ rest)) with ("srt://" +:+ rest).
  change (str_take 6) with (str_take (String.length "srt://")).
  rewrite str_take_app_length.
  change (negb (String.eqb "srt://" "srt://")) with false. cbv iota.
  change (str_find "?" 6) with (str_find "?" (String.length "srt://" + 0)).
  rewrite str_find_app. subst rest.
  change ("?" +:+ ps) with (String "?" ps).
  rewrite (str_find_first "?" hp ps Hq).
  cbn [fmap option_fmap option_map].
  assert (Hlen : String.length ("srt://" +:+ hp +:+ String "?" ps)
                 = 6 + String.length hp + S (String.length ps)).
  { rewrite !string_length_app. simpl. lia. }
  rewrite (substr_in_range 6) by lia. cbn [mbind option_bind].
  change (str_drop 6) with (str_drop (String.length "srt://")).
  rewrite str_drop_app_length.
  replace (String.length "srt://" + String.length hp - 6) with (String.length hp)
    by (simpl; lia).
  rewrite str_take_app_length.
  rewrite substr_in_range
    by (rewrite Hlen; change (String.length "srt://") with 6; lia).
  replace (String.length "srt://" + String.length hp + 1)
    with (String.length "srt://" + (String.length hp + 1)) by lia.
  rewrite !str_drop_app. simpl str_drop.
  by destruct (port_from_hostPort hp port).
Qed.

Lemma port_from_hostPort_decimal (host : string) (n port : Z) :
  lacks ":" host = true ->
  (INT_MIN <= n <= INT_MAX)%Z ->
  port_from_hostPort (host +:+ ":" +:+ to_string n) port
  = Some (if (0 <? to_uint16 n)%Z then to_uint16 n else port).
Proof.
  intros Hc Hn. unfold port_from_hostPort.
  change (":" +:+ to_string n) with (String ":" (to_string n)).
  rewrite (str_find_first ":" host _ Hc).
  rewrite substr_in_range by (rewrite string_length_app; simpl; lia).
  cbn [mbind option_bind]. rewrite str_drop_app. simpl str_drop.
  rewrite (stoi_to_string n Hn). by destruct (0 <? to_uint16 n)%Z.
Qed.

Lemma apply_param_named (name value : string) (latency : Z) (streamId : string) :
  lacks "=" name = true ->
  apply_param (name +:+ "=" +:+ value) latency streamId
  = (let nameLower := str_map tolower name in
     if String.eqb nameLower "latency" || String.eqb nameLower "delay" then
       match stoi value with
       | Some v => Some (v, streamId)
       | None => Some (latency, streamId)
       end
     else if String.eqb nameLower "streamid" then Some (latency, value)
     else Some (latency, streamId)).
Proof.
  intros Hn. unfold apply_param.
  change ("=" +:+ value) with (String "=" value).
  rewrite (str_find_first "=" name value Hn).
  rewrite !substr_in_range by (rewrite ?string_length_app; simpl; lia).
  cbn [mbind option_bind].
  change (str_drop 0 (name +:+ String "=" value)) with (name +:+ String "=" value).
  rewrite str_take_app_length, str_drop_app. by simpl str_drop.
Qed.

Lemma param_loop_last (fuel : nat) (pre param : string)
    (latency : Z) (streamId : string) :
  lacks "&" param = true ->
  param_loop (S fuel) (pre +:+ param) (String.length pre) latency streamId
  = apply_param param latency streamId.
Proof.
  intros Ha. cbn [param_loop].
  rewrite str_find_app_length, (str_find_none "&" param Ha).
  cbn [fmap option_fmap option_map].
  rewrite substr_in_range by (rewrite string_length_app; lia).
  cbn [mbind option_bind]. rewrite str_drop_app_length.
  by destruct (apply_param param latency streamId).
Qed.

Lemma param_loop_step (fuel : nat) (pre param rest : string)
    (latency : Z) (streamId : string) :
  lacks "&" param = true ->
  param_loop (S fuel) (pre +:+ param +:+ "&" +:+ rest) (String.length pre)
             latency streamId
  = r ← apply_param param latency streamId;
    param_loop fuel ((pre +:+ param +:+ "&") +:+ rest)
               (String.length (pre +:+ param +:+ "&")) (fst r) (snd r).
Proof.
  intros Ha. cbn [param_loop].
  change ("&" +:+ rest) with (String "&" rest).
  rewrite str_find_app_length, (str_find_first "&" param rest Ha).
  cbn [fmap option_fmap option_map].
  rewrite substr_in_range by (rewrite string_length_app; lia).
  cbn [mbind option_bind]. rewrite str_drop_app_length.
  replace (String.length pre + String.length param - String.length pre)
    with (String.length param) by lia.
  rewrite str_take_app_length.
  destruct (apply_param param latency streamId) as [r|]; [|done].
  cbn [mbind option_bind].
  assert (Hsame : (pre +:+ param +:+ "&") +:+ rest
                  = pre +:+ param +:+ String "&" rest).
  { by rewrite !string_app_assoc. }
  rewrite Hsame. f_equal. rewrite !string_length_app. simpl. lia.
Qed.

Lemma lacks_app (c : ascii) (a b : string) :
  lacks c (a +:+ b) = lacks c a && lacks c b.
Proof. apply all_chars_app. Qed.

Lemma to_string_lacks (v : Z) (c : ascii) :
  isdigit c = false -> c <> "-"%char -> lacks c (to_string v) = true.
Proof. apply to_string_without. Qed.

Lemma params_latency_only (L latency : Z) (streamId : string) :
  (INT_MIN <= L <= INT_MAX)%Z ->
  param_loop (S (String.length ("latency=" +:+ to_string L)))
             ("latency=" +:+ to_string L) 0 latency streamId
  = Some (L, streamId).
Proof.
  intros HL.
  rewrite (param_loop_last _ "" ("latency=" +:+ to_string L)).
  - rewrite (apply_param_named "latency" (to_string L)) by done.
    cbv zeta. change (str_map tolower "latency") with "latency".
    change (String.eqb "latency" "latency" || _) with true. cbv iota.
    by rewrite stoi_to_string.
  - rewrite lacks_app. by rewrite (to_string_lacks L "&").
Qed.

Lemma params_streamid_latency (sid : string) (L latency : Z) (streamId : string) :
  lacks "&" sid = true ->
  (INT_MIN <= L <= INT_MAX)%Z ->
  param_loop
    (S (String.length ("streamid=" +:+ sid +:+ "&" +:+ "latency=" +:+ to_string L)))
    ("streamid=" +:+ sid +:+ "&" +:+ "latency=" +:+ to_string L) 0 latency streamId
  = Some (L, sid).
Proof.
  intros Hsid HL.
  set (rest := "latency=" +:+ to_string L).
  assert (Hps : "streamid=" +:+ sid +:+ "&" +:+ rest
                = "" +:+ ("streamid=" +:+ sid) +:+ "&" +:+ rest).
  { change ("" +:+ ?x) with x. by rewrite string_app_assoc. }
  rewrite Hps.
  assert (Hrest : lacks "&" rest = true).
  { subst rest. rewrite lacks_app. by rewrite (to_string_lacks L "&"). }
  rewrite (param_loop_step _ "" ("streamid=" +:+ sid) rest)
    by (rewrite lacks_app; by rewrite Hsid).
  rewrite (apply_param_named "streamid" sid) by done.
  cbv zeta. change (str_map tolower "streamid") with "streamid".
  change (String.eqb "streamid" "latency" || String.eqb "streamid" "delay")
    with false.
  change (String.eqb "streamid" "streamid") with true. cbv iota.
  cbn [mbind option_bind fst snd].
  destruct (String.length ("" +:+ ("streamid=" +:+ sid) +:+ "&" +:+ rest))
    as [|fuel] eqn:Hlen.
  { rewrite !string_length_app in Hlen. simpl in Hlen. lia. }
  rewrite (param_loop_last fuel _ rest) by done.
  subst rest. rewrite (apply_param_named "latency" (to_string L)) by done.
  cbv zeta. change (str_map tolower "latency") with "latency".
  change (String.eqb "latency" "latency" || _) with true. cbv iota.
  by rewrite stoi_to_string.
Qed.

Lemma localhost_port_lacks (c : ascii) (P : Z) :
  lacks c "localhost:" = true -> isdigit c = false -> c <> "-"%char ->
  lacks c ("localhost" +:+ ":" +:+ to_string P) = true.
Proof.
  intros Hl Hd Hm. rewrite !lacks_app.
  rewrite (to_string_lacks P c Hd Hm).
  change "localhost:" with ("localhost" +:+ ":") in Hl.
  rewrite lacks_app in Hl. apply andb_prop in Hl as [-> ->]. done.
Qed.

(** ** What the parser returns *)

(** X15: extractSRTParamsFromURL always returns: no substr is out of
    range, the exceptions of stoi are caught and the parameter loop ends
    within its budget.  It returns true exactly for a URL that begins
    with srt://, and when it returns false the port is the caller's while
    latency and streamId have been reset to 2000 and the empty string. *)
Theorem extractSRTParamsFromURL_returns (url : string) (port : Z) :
  exists p l sid,
    extractSRTParamsFromURL url port = Some (starts_with "srt://" url, p, l, sid)
    /\ (starts_with "srt://" url = false -> p = port /\ l = 2000%Z /\ sid = "").
Proof.
  destruct (extractSRTParamsFromURL_result url port) as (p & l & sid & Hr & Hf & _).
  by exists p, l, sid.
Qed.

(** X16: the port that comes back is the caller's or a value from 1 to
    65535: a URL never turns a port that was not 0 into 0. *)
Theorem extractSRTParamsFromURL_port_range
    (url : string) (port : Z) (ok : bool) (p l : Z) (sid : string) :
  extractSRTParamsFromURL url port = Some (ok, p, l, sid) ->
  (p = port \/ (1 <= p <= 65535)%Z) /\ (port <> 0%Z -> p <> 0%Z).
Proof.
  intros Hrun.
  destruct (extractSRTParamsFromURL_result url port)
    as (p' & l' & sid' & Hr & _ & Hp).
  rewrite Hr in Hrun. injection Hrun as <- <- <- <-.
  split; [done|]. intros Hne. destruct Hp as [->|]; [done|lia].
Qed.

(** X17: a port written in the URL goes through static_cast<uint16_t>:
    the number after the colon is taken modulo 65536, and when that is 0
    the caller's port is kept.  So 65536 is ignored and 70000 is read as
    4464. *)
Theorem extractSRTParamsFromURL_port_wraps (host : string) (n port : Z) :
  lacks ":" host = true -> lacks "?" host = true ->
  (INT_MIN <= n <= INT_MAX)%Z ->
  extractSRTParamsFromURL ("srt://" +:+ host +:+ ":" +:+ to_string n) port
  = Some (true, if (0 <? n mod 65536)%Z then (n mod 65536)%Z else port,
          2000%Z, "").
Proof.
  intros Hc Hq Hn. rewrite extract_without_params.
  - by rewrite (port_from_hostPort_decimal host n port Hc Hn).
  - rewrite !lacks_app, Hq. by rewrite (to_string_lacks n "?").
Qed.

(** X18: what buildSRTURL writes, extractSRTParamsFromURL reads back.
    For ports that fit 16 bits, latencies that are ints and a streamId
    without an ampersand, parsing the built URL succeeds and yields the
    streamId, the latency that was used (the argument when it is at
    least 1000, else m_latency) and the port that was used (the argument
    when it is not 0, else m_localPort; the caller's port when both are
    0). *)
Theorem buildSRTURL_round_trip
    (m_localPort m_latency port latency : Z) (streamId : string) (original : Z) :
  (0 <= port < 65536)%Z -> (0 <= m_localPort < 65536)%Z ->
  (INT_MIN <= latency <= INT_MAX)%Z -> (INT_MIN <= m_latency <= INT_MAX)%Z ->
  lacks "&" streamId = true ->
  let usedPort := if (0 <? port)%Z then port else m_localPort in
  let usedLatency := if (1000 <=? latency)%Z then latency else m_latency in
  extractSRTParamsFromURL
    (buildSRTURL m_localPort m_latency port latency streamId) original
  = Some (true, if (0 <? usedPort)%Z then usedPort else original,
          usedLatency, streamId).
Proof.
  intros Hport Hlocal Hlat Hmlat Hsid usedPort usedLatency.
  assert (HP : (0 <= usedPort < 65536)%Z) by (subst usedPort; by destruct (0 <? port)%Z).
  assert (HL : (INT_MIN <= usedLatency <= INT_MAX)%Z)
    by (subst usedLatency; by destruct (1000 <=? latency)%Z).
  assert (Hbase : (if (0 <? port)%Z then "srt://localhost:" +:+ to_string port
                   else "srt://localhost:" +:+ to_string m_localPort)
                  = "srt://" +:+ ("localhost" +:+ ":" +:+ to_string usedPort)).
  { subst usedPort. by destruct (0 <? port)%Z. }
  assert (Hport' : port_from_hostPort ("localhost" +:+ ":" +:+ to_string usedPort)
                     original
                   = Some (if (0 <? usedPort)%Z then usedPort else original)).
  { rewrite port_from_hostPort_decimal; [|done|unfold INT_MIN, INT_MAX; lia].
    unfold to_uint16. by rewrite Z.mod_small. }
  unfold buildSRTURL. fold usedLatency. rewrite Hbase.
  set (hp := "localhost" +:+ ":" +:+ to_string usedPort) in *.
  assert (Hhp : lacks "?" hp = true) by (by apply localhost_port_lacks).
  destruct (String.eqb_spec streamId "") as [->|Hne]; cbn [negb].
  - set (ps := "latency=" +:+ to_string usedLatency).
    assert (Hurl : ("srt://" +:+ hp) +:+ "?" +:+ ps
                   = "srt://" +:+ hp +:+ "?" +:+ ps)
      by apply string_app_assoc.
    rewrite Hurl, (extract_with_params hp ps original Hhp), Hport'.
    cbn [mbind option_bind]. subst ps. by rewrite params_latency_only.
  - set (ps := "streamid=" +:+ streamId +:+ "&" +:+ "latency="
               +:+ to_string usedLatency).
    assert (Hurl : (("srt://" +:+ hp) +:+ "?streamid=" +:+ streamId)
                   +:+ "&" +:+ "latency=" +:+ to_string usedLatency
                   = "srt://" +:+ hp +:+ "?" +:+ ps).
    { subst hp ps. by rewrite !string_app_assoc. }
    rewrite Hurl, (extract_with_params hp ps original Hhp), Hport'.
    cbn [mbind option_bind]. subst ps. by rewrite params_streamid_latency.
Qed.

Lemma extractSRTParamsFromURL_port_range_witness :
  (4464 = 7 \/ 1 <= 4464 <= 65535)%Z /\ (7%Z <> 0%Z -> 4464%Z <> 0%Z).
Proof.
  apply (extractSRTParamsFromURL_port_range
           "srt://localhost:70000?Latency=1500&x&streamid=cam1" 7 true 4464 1500 "cam1").
  reflexivity.
Defined.

Lemma extractSRTParamsFromURL_port_wraps_witness :
  extractSRTParamsFromURL ("srt://" +:+ "relay.example" +:+ ":" +:+ to_string 65536) 9000
  = Some (true, 9000%Z, 2000%Z, "").
Proof.
  apply (extractSRTParamsFromURL_port_wraps "relay.example" 65536 9000);
    [reflexivity|reflexivity|unfold INT_MIN, INT_MAX; lia].
Defined.

Lemma buildSRTURL_round_trip_witness :
  extractSRTParamsFromURL (buildSRTURL 9000 2000 0 500 "live/key=1?x") 1
  = Some (true, 9000%Z, 2000%Z, "live/key=1?x").
Proof.
  apply (buildSRTURL_round_trip 9000 2000 0 500 "live/key=1?x" 1);
    try reflexivity; unfold INT_MIN, INT_MAX; lia.
Defined.

(** * Properties of the relay's settings, paths and handler *)

(** ** loadSettings *)

(** X19: whatever the settings file holds, loadSettings leaves the relay
    with a server port and a local port from 1 to 65535 and a latency
    from 1000 to 8000. *)
Theorem loadSettings_valid (env : SettingsEnv) (r : SrtlaRelay) :
  (1 <= m_port (loadSettings env r) <= 65535)%Z
  /\ (1 <= m_localPort (loadSettings env r) <= 65535)%Z
  /\ (1000 <= m_latency (loadSettings env r) <= 8000)%Z.
Proof.
  unfold loadSettings. cbv zeta.
  destruct (negb (env_exists env _)); [cbn [m_port m_localPort m_latency]; lia|].
  destruct (env_json_file env _) as [settings|];
    [|cbn [m_port m_localPort m_latency]; lia].
  cbn [m_port m_localPort m_latency]. unfold to_uint16.
  set (port := (obs_data_get_int settings "srtla_port" mod 65536)%Z).
  set (localPort := (obs_data_get_int settings "srtla_local_port" mod 65536)%Z).
  set (latency := to_int32 (obs_data_get_int settings "srtla_latency")).
  assert (0 <= port < 65536)%Z by (by apply Z.mod_pos_bound).
  assert (0 <= localPort < 65536)%Z by (by apply Z.mod_pos_bound).
  destruct (Z.eqb_spec port 0), (Z.eqb_spec localPort 0),
    (Z.ltb_spec latency 1000), (Z.ltb_spec 8000 latency); cbn [orb]; lia.
Qed.

(** X20: without a settings file, or with one that cannot be read,
    loadSettings resets every setting to its default except
    m_bidirectionalSync, which keeps the value it had; the path of the IP
    bank and the state of the process are never touched. *)
Theorem loadSettings_defaults (env : SettingsEnv) (r : SrtlaRelay) :
  let configPath :=
    match env_HOME env with
    | Some home => home +:+ "/.config/obs-studio/srtla_settings.json"
    | None => "/tmp/srtla_settings.json"
    end in
  (env_exists env configPath = false \/ env_json_file env configPath = None ->
   loadSettings env r
   = mkSrtlaRelay "" 3000 "" false (m_bidirectionalSync r) 2000 9000 true
                  (m_ipListPath r) (m_processRunning r) (m_processId r))
  /\ m_ipListPath (loadSettings env r) = m_ipListPath r
  /\ m_processRunning (loadSettings env r) = m_processRunning r
  /\ m_processId (loadSettings env r) = m_processId r.
Proof.
  cbv zeta. unfold loadSettings. split.
  - intros [->| ->]; [done|]. by destruct (negb _).
  - destruct (negb _); [done|]. by destruct (env_json_file env _).
Qed.

Lemma loadSettings_defaults_witness :
  loadSettings (mkSettingsEnv (Some "/home/obs") (fun _ => false) (fun _ => None))
               (mkSrtlaRelay "relay.example" 0 "cam" true false 50 0 false
                             "/tmp/srtla_relay_temp/ip_bank.txt" true 4242)
  = mkSrtlaRelay "" 3000 "" false false 2000 9000 true
                 "/tmp/srtla_relay_temp/ip_bank.txt" true 4242.
Proof.
  apply (loadSettings_defaults
           (mkSettingsEnv (Some "/home/obs") (fun _ => false) (fun _ => None))).
  by left.
Defined.

(** ** The path of the IP bank file *)

Lemma string_app_inv_tail (s1 s2 t : string) :
  s1 +:+ t = s2 +:+ t -> s1 = s2.
Proof.
  revert s2. induction s1 as [|a s1 IH]; intros [|b s2] Heq.
  - done.
  - apply (f_equal String.length) in Heq.
    rewrite !string_length_app in Heq. simpl in Heq. lia.
  - apply (f_equal String.length) in Heq.
    rewrite !string_length_app in Heq. simpl in Heq. lia.
  - change (String a (s1 +:+ t) = String b (s2 +:+ t)) in Heq.
    injection Heq as -> Heq. by rewrite (IH s2 Heq).
Qed.

Lemma SrtlaRelay_ipListPath_cases (home : option string) (fs : FS)
    (path : string) (fs' : FS) :
  SrtlaRelay_ipListPath home fs = Some (path, fs') ->
  path = "~/srtla_relay_temp/ip_bank.txt"
  \/ path = "/tmp/srtla_relay_temp/ip_bank.txt".
Proof.
  unfold SrtlaRelay_ipListPath.
  destruct home as [h|].
  - destruct (negb (fs_exists (h +:+ "/srtla_relay_temp") fs));
      [destruct (fs_create_directories (h +:+ "/srtla_relay_temp") fs)|];
      (destruct (negb (fs_exists _ _));
       [destruct (fs_create_directories _ _);
        [|destruct (fs_create_directory _ _)]|]);
      simpl; intros [= <- _]; auto; done.
  - destruct (negb (fs_exists _ _));
      [destruct (fs_create_directories _ _);
       [|destruct (fs_create_directory _ _)]|];
      simpl; intros [= <- _]; auto; done.
Qed.


(** X22: startSrtlaProcess writes the IP bank under the value of HOME,
    the constructor names it without: the file the network-change handler
    rewrites is the file handed to srtla_send only when HOME is unset or
    is the string "~" or "/tmp". *)
Theorem ipListPath_differs_from_realIpPath (home : option string) (fs : FS)
    (path : string) (fs' : FS) :
  SrtlaRelay_ipListPath home fs = Some (path, fs') ->
  path = startSrtlaProcess_realIpPath home ->
  home = None \/ home = Some "~" \/ home = Some "/tmp".
Proof.
  intros Hctor Hsame. apply SrtlaRelay_ipListPath_cases in Hctor.
  destruct home as [h|]; [|by left]. right. simpl in Hsame.
  destruct Hctor as [-> | ->].
  - left. f_equal. symmetry.
    by apply (string_app_inv_tail "~" h "/srtla_relay_temp/ip_bank.txt").
  - right. f_equal. symmetry.
    by apply (string_app_inv_tail "/tmp" h "/srtla_relay_temp/ip_bank.txt").
Qed.


Lemma ipListPath_differs_from_realIpPath_witness :
  @None string = None \/ @None string = Some "~" \/ @None string = Some "/tmp".
Proof.
  apply (ipListPath_differs_from_realIpPath None
           (mkFS {["/tmp/srtla_relay_temp"]} (fun _ => true) (fun _ => true))
           "/tmp/srtla_relay_temp/ip_bank.txt"
           (mkFS {["/tmp/srtla_relay_temp"]} (fun _ => true) (fun _ => true))).
  - by vm_compute.
  - reflexivity.
Defined.

(** ** The monitor with its mutex *)

Lemma locked_fan_out (f : nat -> NetworkChangeCallback RelayHost)
    (handlers : nat -> list NetworkInterface -> Locked.LM unit)
    (v : list NetworkInterface) (ids : list nat) :
  (forall id, handlers id v = Locked.lift (invoke (f id) v)) ->
  forall (owned : bool) (all : list nat) (q : State RelayHost),
    Locked.for_each_id ids (fun id => handlers id v)
                       (Locked.mkLState owned all q)
    = Locked.Ok tt
        (Locked.mkLState owned all
           (snd (for_each (map f ids) (fun _ callback => invoke callback v) tt q))).
Proof.
  intros Hh. induction ids as [|id ids IH]; intros owned all q; [done|].
  cbn [Locked.for_each_id map for_each]. rewrite Hh.
  unfold Locked.bind at 1, Locked.lift at 1, bind at 1, invoke at 1 3, modify.
  cbn [Locked.seq Locked.m_mutex_owned Locked.callback_ids]. apply IH.
Qed.

(** X23: the members that take the mutex need it free.  Called by a
    thread that does not own it, the lock-aware saveIpListToFile returns
    what the sequential saveIpListToFile returns, leaves the state that
    one leaves, and has released the mutex; called by the owner, each of
    saveIpListToFile, getNetworkInterfaces and registerCallback locks the
    mutex a second time. *)
Theorem locked_members_need_the_mutex (s : Locked.LState) (filePath : string)
    (id : nat) :
  (Locked.m_mutex_owned s = false ->
   Locked.saveIpListToFile filePath s
   = Locked.Ok (fst (saveIpListToFile filePath (Locked.seq s)))
       (Locked.mkLState false (Locked.callback_ids s)
          (snd (saveIpListToFile filePath (Locked.seq s)))))
  /\ (Locked.m_mutex_owned s = true ->
      Locked.saveIpListToFile filePath s = Locked.Relock
      /\ Locked.getNetworkInterfaces s = Locked.Relock
      /\ Locked.registerCallback id s = Locked.Relock).
Proof.
  destruct s as [owned ids q]. cbn [Locked.m_mutex_owned Locked.callback_ids Locked.seq].
  split; intros ->.
  - remember (saveIpListToFile filePath q) as r eqn:Hr.
    unfold saveIpListToFile, bind, modify in Hr.
    unfold Locked.saveIpListToFile, Locked.lock_guard.
    unfold Locked.bind, Locked.lift, Locked.lock, Locked.unlock, Locked.ret, modify.
    cbn [Locked.seq Locked.m_mutex_owned Locked.callback_ids].
    destruct (detectNetworkInterfaces q) as [cur q0].
    cbn [Locked.seq Locked.m_mutex_owned Locked.callback_ids].
    destruct (ofstream_open filePath (set_interfaces cur q0)) as [[] q1];
      cbn [negb Locked.seq Locked.m_mutex_owned Locked.callback_ids] in *;
      [|by subst r].
    destruct (for_each cur (save_step filePath) ("", false) q1) as [found q2].
    cbn [negb Locked.seq Locked.m_mutex_owned Locked.callback_ids] in *.
    destruct (snd found);
      cbn [negb Locked.seq Locked.m_mutex_owned Locked.callback_ids] in *;
      unfold cout, modify, ret in *; by subst r.
  - repeat split.
    unfold Locked.saveIpListToFile.
    unfold Locked.bind at 1, Locked.lift at 1. cbn [Locked.seq].
    by destruct (detectNetworkInterfaces q) as [cur q0].
Qed.

(** X24: in the plugin the poll loop cannot get past a change.  The only
    callback registered is the lambda of the SrtlaRelay constructor; it
    runs inside the lock_guard of notifyNetworkChange and calls
    saveIpListToFile, which locks m_mutex again.  So every pass that
    detects a change, with at least one callback registered, ends in that
    second lock and neither rewrites the IP bank nor signals srtla_send. *)
Theorem relay_handler_relocks (s : Locked.LState)
    (last : list NetworkInterface) :
  Locked.m_mutex_owned s = false ->
  Locked.callback_ids s <> [] ->
  haveInterfacesChanged last (fst (detectNetworkInterfaces (Locked.seq s))) = true ->
  Locked.monitorThread_iteration Locked.relay_handlers last s = Locked.Relock.
Proof.
  destruct s as [owned ids q]. cbn [Locked.m_mutex_owned Locked.callback_ids Locked.seq].
  intros -> Hids Hch. destruct ids as [|id ids]; [done|].
  unfold Locked.monitorThread_iteration.
  unfold Locked.bind at 1, Locked.lift at 1. cbn [Locked.seq].
  rewrite detectNetworkInterfaces_run in *. cbn [fst] in Hch.
  rewrite Hch.
  unfold Locked.notifyNetworkChange, Locked.relay_handlers.
  repeat (progress (unfold Locked.onNetworkChange, Locked.saveIpListToFile,
                      Locked.lock_guard, Locked.bind, Locked.lift, Locked.lock,
                      Locked.unlock, Locked.ret, modify, gets;
                    cbn [Locked.seq Locked.m_mutex_owned Locked.callback_ids
                         Locked.for_each_id];
                    rewrite ?detectNetworkInterfaces_run)).
  done.
Qed.

(** X25: callbacks that leave the monitor alone make the mutex
    invisible.  When every handler only acts on the host state, a pass of
    the lock-aware loop returns what the sequential pass returns for the
    same callbacks, leaves the state that one leaves, and ends with the
    mutex released. *)
Theorem locked_iteration_agrees
    (f : nat -> NetworkChangeCallback RelayHost)
    (handlers : nat -> list NetworkInterface -> Locked.LM unit)
    (s : Locked.LState) (last : list NetworkInterface) :
  (forall id v, handlers id v = Locked.lift (invoke (f id) v)) ->
  m_callbacks (mon (Locked.seq s)) = map f (Locked.callback_ids s) ->
  Locked.m_mutex_owned s = false ->
  Locked.monitorThread_iteration handlers last s
  = Locked.Ok (fst (monitorThread_iteration last (Locked.seq s)))
      (Locked.mkLState false (Locked.callback_ids s)
         (snd (monitorThread_iteration last (Locked.seq s)))).
Proof.
  destruct s as [owned ids q]. cbn [Locked.m_mutex_owned Locked.callback_ids Locked.seq].
  intros Hh Hcbs ->.
  rewrite monitorThread_iteration_run.
  unfold Locked.monitorThread_iteration.
  unfold Locked.bind at 1, Locked.lift at 1. cbn [Locked.seq].
  rewrite detectNetworkInterfaces_run. cbn [fst snd].
  set (cur := match w_ifaddrs (world q) with
              | Some ifaddr => fold_left detect_step ifaddr []
              | None => []
              end).
  destruct (haveInterfacesChanged last cur); [|done].
  unfold notifyNetworkChange, bind, gets.
  unfold Locked.notifyNetworkChange, Locked.lock_guard, Locked.lock,
    Locked.unlock, Locked.ret, Locked.bind, Locked.lift, modify, gets.
  cbn [Locked.seq Locked.m_mutex_owned Locked.callback_ids snd fst
       set_interfaces mon m_interfaces m_callbacks].
  rewrite (locked_fan_out f handlers cur ids (fun id => Hh id cur)), Hcbs. done.
Qed.

Lemma locked_members_need_the_mutex_witness :
  Locked.getNetworkInterfaces
    (Locked.mkLState true [0]
       (mkState NetworkMonitor_new
          (mkWorld (Some [os_eth0]) (fun _ => true) ∅ [] 1
             (mkRelayHost
                (mkSrtlaRelay "relay.example" 3000 "" false true 2000 9000 true
                              "~/srtla_relay_temp/ip_bank.txt" true 4242) [] []))))
  = Locked.Relock.
Proof.
  apply (locked_members_need_the_mutex
           (Locked.mkLState true [0]
              (mkState NetworkMonitor_new
                 (mkWorld (Some [os_eth0]) (fun _ => true) ∅ [] 1
                    (mkRelayHost
                       (mkSrtlaRelay "relay.example" 3000 "" false true 2000 9000 true
                                     "~/srtla_relay_temp/ip_bank.txt" true 4242) [] []))))
           "~/srtla_relay_temp/ip_bank.txt" 0).
  reflexivity.
Defined.

Lemma relay_handler_relocks_witness :
  Locked.monitorThread_iteration Locked.relay_handlers []
    (Locked.mkLState false [0]
       (mkState (mkNetworkMonitor true [] [])
          (mkWorld (Some [os_lo; os_eth0]) (fun _ => true) ∅ [] 1
             (mkRelayHost
                (mkSrtlaRelay "relay.example" 3000 "" false true 2000 9000 true
                              "~/srtla_relay_temp/ip_bank.txt" true 4242) [] []))))
  = Locked.Relock.
Proof.
  apply relay_handler_relocks; [reflexivity|discriminate|reflexivity].
Defined.

Lemma locked_iteration_agrees_witness :
  let q := mkState (mkNetworkMonitor true []
                      [fun _ h => system "reload" h])
             (mkWorld (Some [os_lo; os_eth0]) (fun _ => true) ∅ [] 1
                (mkRelayHost
                   (mkSrtlaRelay "relay.example" 3000 "" false true 2000 9000 true
                                 "~/srtla_relay_temp/ip_bank.txt" true 4242) [] [])) in
  let handler := fun (_ : nat) v =>
    Locked.lift (invoke (fun _ h => system "reload" h) v) in
  Locked.monitorThread_iteration handler [] (Locked.mkLState false [0] q)
  = Locked.Ok (fst (monitorThread_iteration [] q))
      (Locked.mkLState false [0] (snd (monitorThread_iteration [] q))).
Proof.
  intros q handler.
  apply (locked_iteration_agrees
           (fun _ _ h => system "reload" h)
           handler (Locked.mkLState false [0] q) []); reflexivity.
Defined.

Lemma saveIpListToFile_frame_witness :
  w_files (world (snd (saveIpListToFile "/tmp/ip_bank.txt"
                         (sample_state (Some [os_eth0]) true))))
    !! "/tmp/srtla.log"
  = w_files (world (sample_state (Some [os_eth0]) true)) !! "/tmp/srtla.log".
Proof.
  apply (saveIpListToFile_frame (sample_state (Some [os_eth0]) true)
           "/tmp/ip_bank.txt").
  discriminate.
Defined.

Lemma extractSRTParamsFromURL_returns_witness :
  exists p l sid,
    extractSRTParamsFromURL "rtmp://live.example/app" 9000 = Some (false, p, l, sid)
    /\ p = 9000%Z /\ l = 2000%Z /\ sid = "".
Proof.
  destruct (extractSRTParamsFromURL_returns "rtmp://live.example/app" 9000)
    as (p & l & sid & Hr & Hf).
  exists p, l, sid. split; [exact Hr|]. apply Hf. reflexivity.
Defined.

(** ** The parameter loop, parameter by parameter *)

Lemma join_params_length (first : string) (rest : list string) :
  length rest <= String.length (join_params first rest).
Proof.
  revert first. induction rest as [|p rest IH]; intros first; simpl; [lia|].
  rewrite !string_length_app. specialize (IH p). simpl. lia.
Qed.

Lemma param_loop_fold (rest : list string) :
  forall (first pre : string) (fuel : nat) (latency : Z) (streamId : string),
    lacks "&" first = true ->
    Forall (fun p => lacks "&" p = true) rest ->
    length rest < fuel ->
    param_loop fuel (pre +:+ join_params first rest) (String.length pre)
               latency streamId
    = apply_params (first :: rest) latency streamId.
Proof.
  induction rest as [|p rest IH];
    intros first pre [|fuel] latency streamId Hfirst Hrest Hfuel;
    try (simpl in Hfuel; lia).
  - cbn [join_params apply_params]. rewrite param_loop_last by done.
    by destruct (apply_param first latency streamId) as [[]|].
  - cbn [join_params]. rewrite param_loop_step by done.
    cbn [apply_params].
    destruct (apply_param first latency streamId) as [r|]; [|done].
    cbn [mbind option_bind].
    apply Forall_cons in Hrest as [Hp Hrest].
    apply (IH p (pre +:+ first +:+ "&") fuel (fst r) (snd r) Hp Hrest).
    simpl in Hfuel. lia.
Qed.

(** X26: the query of a URL is handled parameter by parameter, from left
    to right: for a host part without a question mark and parameters
    without ampersands, the result is that of [apply_param] run over the
    parameters in their order, starting from latency 2000 and an empty
    streamId, so a later latency or streamid replaces an earlier one. *)
Theorem extractSRTParamsFromURL_params_in_order
    (hp first : string) (rest : list string) (port : Z) :
  lacks "?" hp = true ->
  lacks "&" first = true ->
  Forall (fun p => lacks "&" p = true) rest ->
  extractSRTParamsFromURL ("srt://" +:+ hp +:+ "?" +:+ join_params first rest) port
  = p ← port_from_hostPort hp port;
    r ← apply_params (first :: rest) 2000%Z "";
    Some (true, p, fst r, snd r).
Proof.
  intros Hq Hfirst Hrest. rewrite extract_with_params by done.
  destruct (port_from_hostPort hp port) as [p|]; [|done].
  cbn [mbind option_bind].
  change (join_params first rest) with ("" +:+ join_params first rest) at 2.
  change 0 with (String.length "").
  rewrite param_loop_fold; [done..|].
  pose proof (join_params_length first rest). lia.
Qed.

Lemma extractSRTParamsFromURL_params_in_order_witness :
  extractSRTParamsFromURL
    ("srt://" +:+ "localhost:9000" +:+ "?"
       +:+ join_params "latency=1200" ["streamid=a"; "verbose"; "DELAY=3000"; "streamid=b"])
    1
  = Some (true, 9000%Z, 3000%Z, "b").
Proof.
  rewrite (extractSRTParamsFromURL_params_in_order "localhost:9000" "latency=1200"
             ["streamid=a"; "verbose"; "DELAY=3000"; "streamid=b"] 1)
    by (try reflexivity; repeat constructor).
  reflexivity.
Defined.

(** ** Stopping the process *)

(** X27: stopSrtlaProcess does nothing when no process is marked
    running.  Otherwise it takes exactly one action, SIGTERM to the
    recorded pid when that is positive and else a pkill of every
    srtla_send on the machine, and leaves the relay marked not running
    with pid -1; a second call then does nothing. *)
Theorem stopSrtlaProcess_once (h : RelayHost) :
  (m_processRunning (relay h) = false -> stopSrtlaProcess h = h)
  /\ (m_processRunning (relay h) = true ->
      m_processRunning (relay (stopSrtlaProcess h)) = false
      /\ m_processId (relay (stopSrtlaProcess h)) = (-1)%Z
      /\ (if (0 <? m_processId (relay h))%Z
          then sigterm_sent (stopSrtlaProcess h)
               = sigterm_sent h ++ [m_processId (relay h)]
               /\ system_calls (stopSrtlaProcess h) = system_calls h
          else sigterm_sent (stopSrtlaProcess h) = sigterm_sent h
               /\ system_calls (stopSrtlaProcess h)
                  = system_calls h ++ ["pkill -f srtla_send"]))
  /\ stopSrtlaProcess (stopSrtlaProcess h) = stopSrtlaProcess h.
Proof.
  unfold stopSrtlaProcess, killSrtlaProcess.
  destruct (m_processRunning (relay h)) eqn:Hrun; cbn [negb].
  - split; [done|]. split; [|done]. intros _.
    destruct (0 <? m_processId (relay h))%Z; done.
  - split; [done|]. split; [done|]. by rewrite Hrun.
Qed.

Lemma stopSrtlaProcess_once_witness :
  stopSrtlaProcess
    (mkRelayHost
       (mkSrtlaRelay "relay.example" 3000 "" false true 2000 9000 true
                     "~/srtla_relay_temp/ip_bank.txt" false (-1)) [] [])
  = mkRelayHost
      (mkSrtlaRelay "relay.example" 3000 "" false true 2000 9000 true
                    "~/srtla_relay_temp/ip_bank.txt" false (-1)) [] [].
Proof.
  apply (proj1 (stopSrtlaProcess_once
                  (mkRelayHost
                     (mkSrtlaRelay "relay.example" 3000 "" false true 2000 9000 true
                                   "~/srtla_relay_temp/ip_bank.txt" false (-1)) [] []))).
  reflexivity.
Defined.
